(** * Data catalog: location lookup, credential resolution and data retrieval

    A shallow embedding of [data_catalog/assets/location.py] and of the
    retrieval methods of [data_catalog/assets/asset.py]
    ([Asset.get_data], [_get_data_from_url], [_get_data_from_container],
    [_get_container]), followed by the properties of the catalog's
    specification that concern them.

    Python values are modelled as follows: [str] is [string], a value that
    may be [None] is an [option], a naive [datetime] is an integer count on
    a linear time axis (only comparisons are used), [bytes] are a [string]
    of octets.  Exceptions are an explicit error type, and the network
    operations leave a trace of events. *)

From Stdlib Require Import List String Ascii ZArith Bool Lia.
Import ListNotations.
Open Scope string_scope.
Open Scope list_scope.

Set Implicit Arguments.

(** ** Parameters and locations *)

(** [data_catalog.client.models.Parameter] (the class's name is a reserved
    word here): a key and a value; the value may be [None]. *)
Record Param := mkParam {
  key : string;
  value : option string
}.

(** [Location(type, parameters)]. *)
Record Location := mkLocation {
  type : string;
  parameters : list Param
}.

(** [Location.get_parameter], as written: the list comprehension collects
    the values of all parameters whose key matches, and the first one, if
    any, is returned. *)
Definition matching_values (ps : list Param) (k : string) : list (option string) :=
  map value (filter (fun p => String.eqb (key p) k) ps).

Definition get_parameter (l : Location) (k : string) : option string :=
  match matching_values (parameters l) k with
  | v :: _ => v
  | [] => None
  end.

(** The specification's wording of the same lookup: scan the parameters in
    order and stop at the first one whose key matches. *)
Fixpoint scan_first (ps : list Param) (k : string) : option Param :=
  match ps with
  | [] => None
  | p :: ps' => if String.eqb (key p) k then Some p else scan_first ps' k
  end.

Definition get_spec (l : Location) (k : string) : option string :=
  match scan_first (parameters l) k with
  | Some p => value p
  | None => None
  end.


(** ** Exceptions, events and the retrieval monad *)

(** The exceptions that the modelled code raises itself, catches, or
    receives from the libraries it calls.  [FileNotFoundError None] is the
    bare [raise FileNotFoundError] of the validation loop. *)
Inductive exn :=
| ValueError (msg : string)
| TypeError
| NotImplementedError
| FileNotFoundError (msg : option string)
| ResourceNotFoundError
| ParserError
| OtherError (name : string).

(** One event per network operation, in program order. *)
Inductive event :=
| EvGetVersion (asset_id : option string) (version : string)
| EvListBlobs
| EvGetBlobProperties (blob : string)
| EvDownloadBlob (blob : string)
| EvUrlOpen (url : string).

(** A computation leaves the events it performed and ends with a value or
    with a raised exception. *)
Definition M (A : Type) : Type := (list event * (exn + A))%type.

Definition ret {A} (a : A) : M A := ([], inr a).
Definition raise {A} (e : exn) : M A := ([], inl e).

Definition bind {A B} (m : M A) (k : A -> M B) : M B :=
  match m with
  | (t, inl e) => (t, inl e)
  | (t, inr a) => let (t', r) := k a in (t ++ t', r)
  end.

Notation "x <- m ;; k" := (bind m (fun x => k))
  (at level 61, m at next level, right associativity).

(** A library call that performs no network operation. *)
Definition lift {A} (r : exn + A) : M A := ([], r).

(** A network operation: one event, then its outcome. *)
Definition perform {A} (ev : event) (r : exn + A) : M A := ([ev], r).

(** [try: m except ...: h]: the handler [h] says which exceptions the
    [except] clause catches and what runs then. *)
Definition try_except {A} (m : M A) (h : exn -> option (M A)) : M A :=
  match m with
  | (t, inl e) =>
      match h e with
      | Some m' => let (t', r) := m' in (t ++ t', r)
      | None => (t, inl e)
      end
  | (t, inr a) => (t, inr a)
  end.

Definition trace {A} (m : M A) : list event := fst m.
Definition outcome {A} (m : M A) : exn + A := snd m.

Definition is_download (ev : event) : bool :=
  match ev with EvDownloadBlob _ => true | _ => false end.

(** ** Tables *)

(** A [pandas.DataFrame] reduced to what retrieval observes: the column
    labels and the rows, each row holding one cell per column; [None] is a
    missing cell (NaN). *)
Record DataFrame := mkDataFrame {
  columns : list string;
  rows : list (list (option string))
}.

Definition nrows (df : DataFrame) : nat := List.length (rows df).

Definition mem (c : string) (cs : list string) : bool :=
  existsb (String.eqb c) cs.

Fixpoint index_of (c : string) (cs : list string) : option nat :=
  match cs with
  | [] => None
  | c' :: cs' =>
      if String.eqb c c' then Some 0
      else option_map S (index_of c cs')
  end.

(** Union of column labels in order of first appearance. *)
Definition add_columns (acc cs : list string) : list string :=
  fold_left (fun acc c => if mem c acc then acc else acc ++ [c]) cs acc.

Definition all_columns (dfs : list DataFrame) : list string :=
  fold_left (fun acc df => add_columns acc (columns df)) dfs [].

(** A row of a frame with labels [cs], laid out on the labels [target]. *)
Definition reindex (cs target : list string) (row : list (option string))
  : list (option string) :=
  map (fun c => match index_of c cs with
                | Some i => nth i row None
                | None => None
                end) target.

Definition reindexed_rows (target : list string) (df : DataFrame)
  : list (list (option string)) :=
  map (reindex (columns df) target) (rows df).

(** [pd.concat(data_frames, ignore_index=True)]: rows are stacked in the
    order of the argument list, on the union of the columns; an empty list
    of frames raises [ValueError]. *)
Definition pd_concat (dfs : list DataFrame) : exn + DataFrame :=
  match dfs with
  | [] => inl (ValueError "No objects to concatenate")
  | _ :: _ =>
      let target := all_columns dfs in
      inr (mkDataFrame target (flat_map (reindexed_rows target) dfs))
  end.

(** ** The libraries and the outside world *)

(** The library functions whose results the code depends on.  Each returns
    its value or the exception it raises. *)
Class Lib := mkLib {
  (** [datetime.strptime(s, '%Y-%m-%dT%H:%M:%SZ')] *)
  strptime : string -> exn + Z;
  (** [bytes.decode()] *)
  decode : string -> exn + string;
  (** [Sniffer().sniff(text).delimiter] *)
  sniff : string -> exn + string;
  (** [pd.read_csv(stream, sep=delimiter)] *)
  read_csv : string -> string -> exn + DataFrame;
  (** [pd.read_json(stream)] *)
  read_json : string -> exn + DataFrame
}.

(** [ContainerClient(account_url, container_name, credential)]. *)
Record ContainerClient := mkContainerClient {
  account_url : string;
  container_name : string;
  credential : string
}.

(** A blob as the store holds it. *)
Record Blob := mkBlob {
  blob_name : string;
  blob_last_modified : Z;
  blob_content : string
}.

(** An entry of a version's contents: a blob name and the time recorded
    for it when the version was created. *)
Record Content := mkContent {
  content_name : string;
  content_last_modified : Z
}.

Record Version := mkVersion {
  version_name : string;
  contents : list Content
}.

(** What a call finds outside the program: the clock ([now] is the value
    of [datetime.now()], a naive datetime in local wall-clock time, on the
    axis on which [strptime] places its result), the blobs of each
    container in the order the store lists them, the version service
    ([VersionService.get_version], which is not part of the modelled
    files), and the resources behind URLs.  The world does not change
    during one call. *)
Record World := mkWorld {
  now : Z;
  storage : ContainerClient -> list Blob;
  service_get_version : option string -> string -> exn + Version;
  urlopen : string -> exn + string
}.

Definition find_blob (bs : list Blob) (n : string) : option Blob :=
  find (fun b => String.eqb (blob_name b) n) bs.

(** What the code holds for a blob: an item of [list_blobs()] or the
    client made by [get_blob_client(name)].  Either designates the blob by
    its name. *)
Inductive BlobHandle :=
| BlobProperties (name : string) (last_modified : Z)
| BlobClient (name : string).

Definition handle_name (h : BlobHandle) : string :=
  match h with
  | BlobProperties n _ => n
  | BlobClient n => n
  end.

(** [blob.get_blob_properties()] *)
Definition get_blob_properties (w : World) (c : ContainerClient) (n : string)
  : M Blob :=
  perform (EvGetBlobProperties n)
    (match find_blob (storage w c) n with
     | Some b => inr b
     | None => inl ResourceNotFoundError
     end).

(** [container.download_blob(blob).readinto(stream)]: the blob that the
    handle designates is fetched by its name. *)
Definition download_blob (w : World) (c : ContainerClient) (h : BlobHandle)
  : M string :=
  perform (EvDownloadBlob (handle_name h))
    (match find_blob (storage w c) (handle_name h) with
     | Some b => inr (blob_content b)
     | None => inl ResourceNotFoundError
     end).

(** [container.list_blobs()] returns a lazy pager: the listing request is
    sent when the pager is iterated. *)
Inductive BlobList :=
| Pager (c : ContainerClient)
| Handles (hs : list BlobHandle).

Definition listed (w : World) (c : ContainerClient) : list BlobHandle :=
  map (fun b => BlobProperties (blob_name b) (blob_last_modified b)) (storage w c).

(** [for blob in blob_list]: the items the loop runs over. *)
Definition iterate (w : World) (bl : BlobList) : M (list BlobHandle) :=
  match bl with
  | Pager c => perform EvListBlobs (inr (listed w c))
  | Handles hs => ret hs
  end.

(** ** Assets *)

Record Asset := mkAsset {
  id : option string;
  format : option string;
  location : option Location
}.

Definition format_is (a : Asset) (f : string) : bool :=
  match format a with
  | Some g => String.eqb g f
  | None => false
  end.

(** [Asset.get_version] *)
Definition get_version (w : World) (a : Asset) (version : string) : M Version :=
  perform (EvGetVersion (id a) version) (service_get_version w (id a) version).

(** ** Retrieval *)

Section Retrieval.

Context {L : Lib}.

(** Lines 173 to 183 of [Asset._get_container]: the value of the local
    variable [credential] when the check of the three values is reached.
    [strptime] is called on whatever [get_parameter('expiryTime')]
    returned; on [None] it raises [TypeError]. *)
Definition resolve_credential (w : World) (l : Location) : exn + option string :=
  match get_parameter l "sasToken" with
  | Some sas_token =>
      match
        match get_parameter l "expiryTime" with
        | Some s => strptime s
        | None => inl TypeError
        end
      with
      | inl e => inl e
      | inr expiry_time =>
          if (expiry_time >=? now w)%Z
          then inr (Some sas_token)
          else inr (get_parameter l "accountKey")
      end
  | None => inr (get_parameter l "accountKey")
  end.

(** [Asset._get_container]: no network operation happens here, the client
    is only constructed. *)
Definition _get_container (w : World) (l : Location) : exn + ContainerClient :=
  let account_url := get_parameter l "accountUrl" in
  let container_name := get_parameter l "containerName" in
  match resolve_credential w l with
  | inl e => inl e
  | inr credential =>
      match account_url, container_name, credential with
      | Some u, Some n, Some k => inr (mkContainerClient u n k)
      | _, _, _ => inl (ValueError "Parameters missing to create the container.")
      end
  end.

Definition catch_parser_error {A} (msg : string) (e : exn) : option (M A) :=
  match e with
  | ParserError => Some (raise (ValueError msg))
  | _ => None
  end.

(** [Asset._get_data_from_url] *)
Definition _get_data_from_url (w : World) (a : Asset) (l : Location) : M DataFrame :=
  match get_parameter l "url" with
  | None => raise (ValueError "Location has no url parameter")
  | Some url =>
      try_except
        (if format_is a "csv" then
           stream <- perform (EvUrlOpen url) (urlopen w url) ;;
           text <- lift (decode stream) ;;
           delimiter <- lift (sniff text) ;;
           lift (read_csv stream delimiter)
         else if format_is a "json" then
           stream <- perform (EvUrlOpen url) (urlopen w url) ;;
           lift (read_json stream)
         else raise NotImplementedError)
        (catch_parser_error "Could not parse data from url")
  end.

Definition not_found_message (n : string) : string :=
  ("The blob " ++ n ++ " was not found, or it was modified.")%string.

(** The body of the loop over [version.contents]: the blob's current
    properties are fetched and compared with the recorded time. *)
Definition check_content (w : World) (c : ContainerClient) (content : Content)
  : M BlobHandle :=
  try_except
    (let blob := BlobClient (content_name content) in
     props <- get_blob_properties w c (content_name content) ;;
     if (blob_last_modified props >? content_last_modified content)%Z
     then raise (FileNotFoundError None)
     else ret blob)
    (fun e =>
       match e with
       | ResourceNotFoundError | FileNotFoundError _ =>
           Some (raise (FileNotFoundError
                          (Some (not_found_message (content_name content)))))
       | _ => None
       end).

(** The loop over [version.contents], with [blob_list] as accumulator. *)
Fixpoint check_contents (w : World) (c : ContainerClient)
    (cs : list Content) (blob_list : list BlobHandle) : M (list BlobHandle) :=
  match cs with
  | [] => ret blob_list
  | content :: cs' =>
      blob <- check_content w c content ;;
      check_contents w c cs' (blob_list ++ [blob])
  end.

Definition load_csv (w : World) (c : ContainerClient) (blob : BlobHandle)
  : M DataFrame :=
  stream <- download_blob w c blob ;;
  text <- lift (decode stream) ;;
  delimiter <- lift (sniff text) ;;
  lift (read_csv stream delimiter).

Definition load_json (w : World) (c : ContainerClient) (blob : BlobHandle)
  : M DataFrame :=
  stream <- download_blob w c blob ;;
  lift (read_json stream).

(** A loop [for blob in blob_list: ... data_frames.append(...)]. *)
Fixpoint for_each (body : BlobHandle -> M DataFrame) (hs : list BlobHandle)
    (data_frames : list DataFrame) : M (list DataFrame) :=
  match hs with
  | [] => ret data_frames
  | blob :: hs' =>
      df <- body blob ;;
      for_each body hs' (data_frames ++ [df])
  end.

(** Lines 140 to 162: the [try] block that fills [data_frames]. *)
Definition load_all (w : World) (c : ContainerClient) (a : Asset)
    (blob_list : BlobList) : M (list DataFrame) :=
  try_except
    (if format_is a "csv" then
       hs <- iterate w blob_list ;;
       for_each (load_csv w c) hs []
     else if format_is a "json" then
       hs <- iterate w blob_list ;;
       for_each (load_json w c) hs []
     else raise NotImplementedError)
    (catch_parser_error "Could not parse the data from the blob container").

(** [Asset._get_data_from_container] *)
Definition _get_data_from_container (w : World) (a : Asset) (l : Location)
    (version_name : option string) : M DataFrame :=
  container <- lift (_get_container w l) ;;
  blob_list <-
    match version_name with
    | None => ret (Pager container)
    | Some v =>
        version <- get_version w a v ;;
        hs <- check_contents w container (contents version) [] ;;
        ret (Handles hs)
    end ;;
  data_frames <- load_all w container a blob_list ;;
  lift (pd_concat data_frames).

(** [Asset.get_data] *)
Definition get_data (w : World) (a : Asset) (version_name : option string)
  : M DataFrame :=
  match location a with
  | None => raise (ValueError "Asset location is not defined")
  | Some l =>
      if String.eqb (type l) "url" then _get_data_from_url w a l
      else if String.eqb (type l) "azureblob"
      then _get_data_from_container w a l version_name
      else raise NotImplementedError
  end.

End Retrieval.

(** ** Notions used in the statements *)

Section Notions.

Context {L : Lib}.

(** The table that the bytes of one object parse to: what the body of the
    download loop computes from a downloaded stream. *)
Definition parse_csv (stream : string) : exn + DataFrame :=
  match decode stream with
  | inl e => inl e
  | inr text =>
      match sniff text with
      | inl e => inl e
      | inr delimiter => read_csv stream delimiter
      end
  end.

Definition parse (fmt stream : string) : exn + DataFrame :=
  if String.eqb fmt "csv" then parse_csv stream
  else if String.eqb fmt "json" then read_json stream
  else inl NotImplementedError.

(** The table that the blob currently stored under a name parses to: the
    outcome of one round of the download loop. *)
Definition current_table (w : World) (c : ContainerClient) (fmt n : string)
  : exn + DataFrame :=
  match find_blob (storage w c) n with
  | Some b => parse fmt (blob_content b)
  | None => inl ResourceNotFoundError
  end.

End Notions.

(** An entry of a version is fresh when the store holds a blob of that name
    whose modification time is not later than the recorded one. *)
Definition fresh (w : World) (c : ContainerClient) (e : Content) : bool :=
  match find_blob (storage w c) (content_name e) with
  | Some b => (blob_last_modified b <=? content_last_modified e)%Z
  | None => false
  end.

(** The two ways in which an entry fails to be fresh. *)
Definition missing (w : World) (c : ContainerClient) (e : Content) : Prop :=
  find_blob (storage w c) (content_name e) = None.

Definition modified_since (w : World) (c : ContainerClient) (e : Content) : Prop :=
  exists b,
    find_blob (storage w c) (content_name e) = Some b /\
    (blob_last_modified b > content_last_modified e)%Z.

Definition supported (fmt : string) : bool :=
  String.eqb fmt "csv" || String.eqb fmt "json".

(** No two blobs of a listing carry the same name. *)
Fixpoint distinct (ns : list string) : bool :=
  match ns with
  | [] => true
  | n :: ns' => negb (mem n ns') && distinct ns'
  end.

(** A value that is there and is not the empty string. *)
Definition nonempty (x : option string) : bool :=
  match x with
  | Some s => negb (String.eqb s EmptyString)
  | None => false
  end.

(** The last line of [_get_data_from_container] applied to the outcome of
    the [try] block before it. *)
Definition finish (r : exn + list DataFrame) : exn + DataFrame :=
  match r with
  | inl e => inl e
  | inr dfs => pd_concat dfs
  end.

(** The clients that the validation loop collects for a list of entries. *)
Definition clients (cs : list Content) : list BlobHandle :=
  map (fun e => BlobClient (content_name e)) cs.

Definition get_properties_events (cs : list Content) : list event :=
  map (fun e => EvGetBlobProperties (content_name e)) cs.

Definition download_events (ns : list string) : list event :=
  map EvDownloadBlob ns.

(** ** A sample library and sample worlds

    Stand-ins for the Python libraries, small enough to run the model on
    concrete inputs.  On the inputs used below they end as the libraries
    do, with a value or with the same kind of exception (the wording of
    the messages apart; cells are kept as text): zero-padded timestamps,
    ASCII text, comma-separated files with a header line (a line with too
    many fields is a [ParserError], a short line is filled with missing
    cells). *)

Definition digit (ch : ascii) : option Z :=
  let n := Z.of_nat (nat_of_ascii ch) in
  if ((48 <=? n) && (n <=? 57))%Z then Some (n - 48)%Z else None.

Fixpoint number_from (acc : Z) (s : string) : option Z :=
  match s with
  | EmptyString => Some acc
  | String ch s' =>
      match digit ch with
      | Some d => number_from (10 * acc + d)%Z s'
      | None => None
      end
  end.

Definition number (s : string) : option Z :=
  match s with
  | EmptyString => None
  | _ => number_from 0%Z s
  end.

Definition is_leap (y : Z) : bool :=
  ((y mod 4 =? 0) && (negb (y mod 100 =? 0) || (y mod 400 =? 0)))%Z.

Definition days_in_month (y m : Z) : Z :=
  if (m =? 2)%Z then (if is_leap y then 29 else 28)%Z
  else if ((m =? 4) || (m =? 6) || (m =? 9) || (m =? 11))%Z then 30%Z
  else 31%Z.

(** Days between 1970-01-01 and the given civil date. *)
Definition days_from_civil (y m d : Z) : Z :=
  let y' := (if m <=? 2 then y - 1 else y)%Z in
  let era := (y' / 400)%Z in
  let yoe := (y' - era * 400)%Z in
  let mp := (if m >? 2 then m - 3 else m + 9)%Z in
  let doy := ((153 * mp + 2) / 5 + d - 1)%Z in
  let doe := (yoe * 365 + yoe / 4 - yoe / 100 + doy)%Z in
  (era * 146097 + doe - 719468)%Z.

(** Timestamps of the exact shape [YYYY-MM-DDTHH:MM:SSZ], as seconds on the
    time axis; anything else is a [ValueError]. *)
Definition sample_strptime (s : string) : exn + Z :=
  let bad := inl (ValueError "time data does not match format") in
  if negb (Nat.eqb (String.length s) 20) then bad else
  if negb (String.eqb (substring 4 1 s) "-" && String.eqb (substring 7 1 s) "-"
           && String.eqb (substring 10 1 s) "T" && String.eqb (substring 13 1 s) ":"
           && String.eqb (substring 16 1 s) ":" && String.eqb (substring 19 1 s) "Z")
  then bad else
  match number (substring 0 4 s), number (substring 5 2 s),
        number (substring 8 2 s), number (substring 11 2 s),
        number (substring 14 2 s), number (substring 17 2 s) with
  | Some y, Some m, Some d, Some hh, Some mm, Some ss =>
      if ((1 <=? y) && (1 <=? m) && (m <=? 12) && (1 <=? d)
          && (d <=? days_in_month y m) && (hh <=? 23) && (mm <=? 59)
          && (ss <=? 59))%Z
      then inr (days_from_civil y m d * 86400 + hh * 3600 + mm * 60 + ss)%Z
      else bad
  | _, _, _, _, _, _ => bad
  end.

Fixpoint split_on (d : ascii) (s : string) : list string :=
  match s with
  | EmptyString => [EmptyString]
  | String ch s' =>
      if Ascii.eqb ch d then EmptyString :: split_on d s'
      else
        match split_on d s' with
        | h :: t => String ch h :: t
        | [] => [String ch EmptyString]
        end
  end.

Fixpoint contains (d : ascii) (s : string) : bool :=
  match s with
  | EmptyString => false
  | String ch s' => Ascii.eqb ch d || contains d s'
  end.

Definition newline : ascii := "010"%char.

Definition text_lines (s : string) : list string :=
  filter (fun l => negb (String.eqb l EmptyString)) (split_on newline s).

Definition sample_sniff (text : string) : exn + string :=
  if contains ","%char text then inr ","
  else if contains ";"%char text then inr ";"
  else inl (OtherError "csv.Error").

Definition sample_read_csv (stream delimiter : string) : exn + DataFrame :=
  match delimiter with
  | String d EmptyString =>
      match text_lines stream with
      | [] => inl (OtherError "EmptyDataError")
      | header :: body =>
          let cs := split_on d header in
          let n := List.length cs in
          if forallb (fun l => Nat.leb (List.length (split_on d l)) n) body
          then inr (mkDataFrame cs
                      (map (fun l => let fs := map Some (split_on d l) in
                                     fs ++ repeat None (n - List.length fs)) body))
          else inl ParserError
      end
  | _ => inl (ValueError "delimiter must be a 1-character string")
  end.

Definition sample_read_json (stream : string) : exn + DataFrame :=
  if String.eqb stream "[]" then inr (mkDataFrame [] [])
  else inl (ValueError "Expected object or value").

Definition sample_lib : Lib :=
  mkLib sample_strptime (fun b => inr b) sample_sniff sample_read_csv sample_read_json.

Definition unlines (ls : list string) : string :=
  fold_right (fun l acc => (l ++ String newline acc)%string) EmptyString ls.

Definition param (k v : string) : Param := mkParam k (Some v).

(** A container reached with an account key. *)
Definition sample_location : Location :=
  mkLocation "azureblob"
    [param "accountUrl" "https://acc.blob.core.windows.net";
     param "containerName" "data";
     param "accountKey" "K"].

Definition sample_container : ContainerClient :=
  mkContainerClient "https://acc.blob.core.windows.net" "data" "K".

Definition sample_blobs : list Blob :=
  [mkBlob "a.csv" 100 (unlines ["x,y"; "1,2"]);
   mkBlob "b.csv" 200 (unlines ["x,y"; "3,4"; "5,6"])].

(** Version [v1] records both blobs at their current times, in the order
    b, a; version [old] records [b.csv] at an earlier time than its current
    one; version [gone] names a blob that the store does not hold; version
    [empty] has no contents. *)
Definition version_v1 : Version :=
  mkVersion "v1" [mkContent "b.csv" 200; mkContent "a.csv" 100].

Definition version_old : Version :=
  mkVersion "old" [mkContent "a.csv" 100; mkContent "b.csv" 150].

Definition version_gone : Version :=
  mkVersion "gone" [mkContent "a.csv" 100; mkContent "c.csv" 300].

Definition sample_versions (i : option string) (v : string) : exn + Version :=
  if String.eqb v "v1" then inr version_v1
  else if String.eqb v "old" then inr version_old
  else if String.eqb v "gone" then inr version_gone
  else if String.eqb v "empty" then inr (mkVersion "empty" [])
  else inl (OtherError "NotFound").

(** The tables of the two blobs. *)
Definition table_a : DataFrame :=
  mkDataFrame ["x"; "y"] [[Some "1"; Some "2"]].

Definition table_b : DataFrame :=
  mkDataFrame ["x"; "y"] [[Some "3"; Some "4"]; [Some "5"; Some "6"]].

Definition sample_resources (url : string) : exn + string :=
  if String.eqb url "http://x/data.csv"
  then inr (unlines ["a,b"; "1,2"; "3,4"])
  else inl (OtherError "URLError").

(** 2026-11-04 12:00:00 on the time axis of [sample_strptime]. *)
Definition sample_now : Z := 1793793600.

Definition sample_world : World :=
  mkWorld sample_now (fun _ => sample_blobs) sample_versions sample_resources.

Definition sample_asset (fmt : string) (l : Location) : Asset :=
  mkAsset (Some "222") (Some fmt) (Some l).

(** A token that expires one hour after [sample_now], next to a key. *)
Definition token_location : Location :=
  mkLocation "azureblob"
    [param "accountUrl" "https://acc.blob.core.windows.net";
     param "containerName" "data";
     param "sasToken" "T";
     param "expiryTime" "2026-11-04T13:00:00Z";
     param "accountKey" "K"].

(** The same with a token that expired one hour before [sample_now]. *)
Definition expired_location : Location :=
  mkLocation "azureblob"
    [param "accountUrl" "https://acc.blob.core.windows.net";
     param "containerName" "data";
     param "sasToken" "T";
     param "expiryTime" "2026-11-04T11:00:00Z";
     param "accountKey" "K"].

(** [datetime.now()] on a machine whose local time is [offset] seconds
    ahead of UTC, at the instant that is [utc] seconds on the time axis read
    as UTC: the local wall-clock reading, as a naive datetime. *)
Definition local_now (utc offset : Z) : Z := (utc + offset)%Z.

(** The sample world at the instant [sample_now] (2026-11-04 12:00:00 UTC)
    on a machine in Bucharest (UTC+2, the clock shows 14:00) and on a
    machine in New York (UTC-5, the clock shows 07:00). *)
Definition bucharest_world : World :=
  mkWorld (local_now sample_now 7200) (fun _ => sample_blobs) sample_versions
    sample_resources.

Definition new_york_world : World :=
  mkWorld (local_now sample_now (-18000)) (fun _ => sample_blobs) sample_versions
    sample_resources.

(** A token without the time of its expiry, next to a key. *)
Definition undated_location : Location :=
  mkLocation "azureblob"
    [param "accountUrl" "https://acc.blob.core.windows.net";
     param "containerName" "data";
     param "sasToken" "T";
     param "accountKey" "K"].

(** A location with neither a token nor a key. *)
Definition keyless_location : Location :=
  mkLocation "azureblob"
    [param "accountUrl" "https://acc.blob.core.windows.net";
     param "containerName" "data"].

(** A location whose key is the empty string. *)
Definition empty_key_location : Location :=
  mkLocation "azureblob"
    [param "accountUrl" "https://acc.blob.core.windows.net";
     param "containerName" "data";
     param "accountKey" EmptyString].

Definition url_location : Location :=
  mkLocation "url" [param "url" "http://x/data.csv"].

(** ** User responses

    [data_catalog/client/user/models/user_response.py].  The attributes
    hold strings or [None].  [Configuration] is not among the modelled
    files; of it only the flag [client_side_validation] is read, and the
    configuration that [Configuration()] builds is an argument of the
    constructor below. *)

Record Configuration := mkConfiguration {
  client_side_validation : bool
}.

Record UserResponse := mkUserResponse {
  local_vars_configuration : Configuration;
  _id : option string;
  _email : option string;
  _first_name : option string;
  _last_name : option string;
  _username : option string;
  _role : option string
}.

Definition is_none {A} (x : option A) : bool :=
  match x with
  | None => true
  | Some _ => false
  end.

Definition validating (u : UserResponse) : bool :=
  client_side_validation (local_vars_configuration u).

Definition must_not_be_none (attr : string) : exn :=
  ValueError ("Invalid value for `" ++ attr ++ "`, must not be `None`")%string.

(** The setters. *)
Definition set_id (u : UserResponse) (x : option string) : exn + UserResponse :=
  if validating u && is_none x then inl (must_not_be_none "id")
  else inr (mkUserResponse (local_vars_configuration u) x (_email u)
              (_first_name u) (_last_name u) (_username u) (_role u)).

Definition set_email (u : UserResponse) (x : option string) : exn + UserResponse :=
  if validating u && is_none x then inl (must_not_be_none "email")
  else inr (mkUserResponse (local_vars_configuration u) (_id u) x
              (_first_name u) (_last_name u) (_username u) (_role u)).

Definition set_first_name (u : UserResponse) (x : option string) : exn + UserResponse :=
  if validating u && is_none x then inl (must_not_be_none "first_name")
  else inr (mkUserResponse (local_vars_configuration u) (_id u) (_email u)
              x (_last_name u) (_username u) (_role u)).

Definition set_last_name (u : UserResponse) (x : option string) : exn + UserResponse :=
  if validating u && is_none x then inl (must_not_be_none "last_name")
  else inr (mkUserResponse (local_vars_configuration u) (_id u) (_email u)
              (_first_name u) x (_username u) (_role u)).

Definition too_short (x : option string) : bool :=
  match x with
  | Some s => Nat.ltb (String.length s) 3
  | None => false
  end.

Definition set_username (u : UserResponse) (x : option string) : exn + UserResponse :=
  if validating u && is_none x then inl (must_not_be_none "username")
  else if validating u && (negb (is_none x) && too_short x) then
    inl (ValueError
           "Invalid value for `username`, length must be greater than or equal to `3`")
  else inr (mkUserResponse (local_vars_configuration u) (_id u) (_email u)
              (_first_name u) (_last_name u) x (_role u)).

Definition allowed_values : list string := ["admin"; "user"].

Definition allowed (x : option string) : bool :=
  match x with
  | Some s => mem s allowed_values
  | None => false
  end.

(** [str(x)] for a string or [None]. *)
Definition py_str (x : option string) : string :=
  match x with
  | Some s => s
  | None => "None"
  end.

Definition invalid_role (x : option string) : exn :=
  ValueError ("Invalid value for `role` (" ++ py_str x
              ++ "), must be one of ['admin', 'user']")%string.

Definition set_role (u : UserResponse) (x : option string) : exn + UserResponse :=
  if validating u && negb (allowed x) then inl (invalid_role x)
  else inr (mkUserResponse (local_vars_configuration u) (_id u) (_email u)
              (_first_name u) (_last_name u) (_username u) x).

Definition and_then {A B} (r : exn + A) (k : A -> exn + B) : exn + B :=
  match r with
  | inl e => inl e
  | inr a => k a
  end.

(** [UserResponse.__init__].  [default] is what [Configuration()] returns;
    [role] is the value bound to the parameter ([Some "user"] when the
    caller leaves it out). *)
Definition UserResponse_init (default : Configuration)
    (id email first_name last_name username role : option string)
    (lvc : option Configuration) : exn + UserResponse :=
  let cfg := match lvc with
             | None => default
             | Some c => c
             end in
  and_then (set_id (mkUserResponse cfg None None None None None None) id) (fun u =>
  and_then (set_email u email) (fun u =>
  and_then (set_first_name u first_name) (fun u =>
  and_then (set_last_name u last_name) (fun u =>
  and_then (set_username u username) (fun u =>
  match role with
  | Some _ => set_role u role
  | None => inr u
  end))))).

(** [to_dict]: the attributes in the order of [openapi_types]; the values
    are strings or [None], so each is stored as it is. *)
Definition to_dict (u : UserResponse) : list (string * option string) :=
  [("id", _id u); ("email", _email u); ("first_name", _first_name u);
   ("last_name", _last_name u); ("username", _username u); ("role", _role u)].

Definition value_eqb (x y : option string) : bool :=
  match x, y with
  | Some a, Some b => String.eqb a b
  | None, None => true
  | _, _ => false
  end.

(** Equality of two dictionaries built by [to_dict]: they have the same
    keys in the same order, so they are equal when the entries are. *)
Fixpoint dict_eqb (d d' : list (string * option string)) : bool :=
  match d, d' with
  | [], [] => true
  | (k, x) :: r, (k', x') :: r' => String.eqb k k' && value_eqb x x' && dict_eqb r r'
  | _, _ => false
  end.

(** What [other] can be in a comparison. *)
Inductive PyObject :=
| PyUserResponse (u : UserResponse)
| PyOther.

(** [__eq__] and [__ne__]. *)
Definition UserResponse_eq (u : UserResponse) (other : PyObject) : bool :=
  match other with
  | PyUserResponse o => dict_eqb (to_dict u) (to_dict o)
  | PyOther => false
  end.

Definition UserResponse_ne (u : UserResponse) (other : PyObject) : bool :=
  match other with
  | PyUserResponse o => negb (dict_eqb (to_dict u) (to_dict o))
  | PyOther => true
  end.

(** What the setters and the constructor keep on an object that validates. *)
Definition well_formed (u : UserResponse) : Prop :=
  validating u = true ->
  _id u <> None /\ _email u <> None /\ _first_name u <> None /\
  _last_name u <> None /\
  (exists s, _username u = Some s /\ 3 <= String.length s) /\
  (_role u = None \/ _role u = Some "admin" \/ _role u = Some "user").

(** ** Further notions for retrieval *)

(** The effect of an [except pd.errors.ParserError] clause on an outcome. *)
Definition reraise {A} (msg : string) (r : exn + A) : exn + A :=
  match r with
  | inl ParserError => inl (ValueError msg)
  | _ => r
  end.


Definition container_message : string :=
  "Could not parse the data from the blob container".

(** ** Further sample data *)

(** A container that lists nothing. *)
Definition empty_world : World :=
  mkWorld sample_now (fun _ => []) sample_versions sample_resources.

(** A container whose second blob has a last line with too many fields,
    after ten lines of two fields. *)
Definition broken_blob : Blob :=
  mkBlob "bad.csv" 150
    (unlines ["x,y"; "1,2"; "2,3"; "3,4"; "4,5"; "5,6"; "6,7"; "7,8"; "8,9";
              "9,10"; "1,2,3"]).

Definition broken_world : World :=
  mkWorld sample_now
    (fun _ => [mkBlob "a.csv" 100 (unlines ["x,y"; "1,2"]);
               broken_blob;
               mkBlob "b.csv" 200 (unlines ["x,y"; "3,4"; "5,6"])])
    sample_versions sample_resources.

(** A token whose expiry time is not a timestamp, next to a key. *)
Definition malformed_location : Location :=
  mkLocation "azureblob"
    [param "accountUrl" "https://acc.blob.core.windows.net";
     param "containerName" "data";
     param "sasToken" "T";
     param "expiryTime" "tomorrow";
     param "accountKey" "K"].

Definition strict : Configuration := mkConfiguration true.
Definition lenient : Configuration := mkConfiguration false.

Definition sample_user (cfg : Configuration) : UserResponse :=
  mkUserResponse cfg (Some "1") (Some "kata@example.org") (Some "Kata")
    (Some "Cseke") (Some "kata") (Some "user").

(** The sample container after a blob was added to it. *)
Definition grown_world : World :=
  mkWorld sample_now
    (fun _ => mkBlob "0.csv" 300 (unlines ["x,y"; "7,8"]) :: sample_blobs)
    sample_versions sample_resources.

(** * Properties *)

(** ** Location lookup *)

Lemma matching_values_cons (p : Param) (ps : list Param) (k : string) :
  matching_values (p :: ps) k =
  if String.eqb (key p) k then value p :: matching_values ps k
  else matching_values ps k.
Proof.
  unfold matching_values. simpl. destruct (String.eqb (key p) k); reflexivity.
Qed.

(** The comprehension-and-index form of the code computes the in-order scan
    of the specification. *)
Lemma get_parameter_scan (l : Location) (k : string) :
  get_parameter l k = get_spec l k.
Proof.
  unfold get_parameter, get_spec. destruct l as [ty ps]. simpl.
  induction ps as [|p ps IH].
  - reflexivity.
  - rewrite matching_values_cons. simpl.
    destruct (String.eqb (key p) k); [reflexivity | exact IH].
Qed.

Lemma scan_first_none (ps : list Param) (k : string) :
  scan_first ps k = None <-> (forall p, In p ps -> key p <> k).
Proof.
  induction ps as [|p ps IH]; simpl.
  - split; [intros _ q [] | reflexivity].
  - destruct (String.eqb_spec (key p) k) as [E|N].
    + split; [discriminate | intros H; exfalso; apply (H p); auto].
    + rewrite IH. split.
      * intros H q [<-|Hq]; auto.
      * intros H q Hq. apply H. now right.
Qed.

Lemma scan_first_some (ps : list Param) (k : string) (p : Param) :
  scan_first ps k = Some p ->
  exists before after,
    ps = before ++ p :: after /\ key p = k /\
    (forall q, In q before -> key q <> k).
Proof.
  induction ps as [|q ps IH]; simpl; [discriminate|].
  destruct (String.eqb_spec (key q) k) as [E|N].
  - intros [= <-]. exists [], ps. repeat split; auto.
  - intros H. destruct (IH H) as (before & after & -> & Hk & Hb).
    exists (q :: before), after. repeat split; auto.
    intros r [<-|Hr]; auto.
Qed.

Lemma scan_first_app (before after : list Param) (p : Param) (k : string) :
  (forall q, In q before -> key q <> k) -> key p = k ->
  scan_first (before ++ p :: after) k = Some p.
Proof.
  intros Hb Hk. induction before as [|q before IH]; simpl.
  - rewrite Hk, String.eqb_refl. reflexivity.
  - destruct (String.eqb_spec (key q) k) as [E|N].
    + exfalso. apply (Hb q); simpl; auto.
    + apply IH. intros r Hr. apply Hb. now right.
Qed.

(** C8.  For every location and every key, [get_parameter] returns a value
    in every case (it is a total function into [option string], so no
    exception is raised): either the parameters split as
    [before ++ p :: after] where [p] is the first parameter whose key is
    the requested one and the result is the value of [p], or no parameter
    has that key and the result is [None]. *)
Theorem get_parameter_first_match (l : Location) (k : string) :
  (exists before p after,
     parameters l = before ++ p :: after /\
     key p = k /\
     (forall q, In q before -> key q <> k) /\
     get_parameter l k = value p)
  \/
  ((forall q, In q (parameters l) -> key q <> k) /\
   get_parameter l k = None).
Proof.
  rewrite get_parameter_scan. unfold get_spec.
  destruct (scan_first (parameters l) k) as [p|] eqn:E.
  - left. destruct (scan_first_some _ _ E) as (before & after & Hs & Hk & Hb).
    exists before, p, after. auto.
  - right. split; [|reflexivity]. now apply scan_first_none.
Qed.

(** C10.  When the first parameter whose key matches carries [None] as its
    value, [get_parameter] returns [None], which is also what it returns on
    any location that has no parameter of that key. *)
Theorem get_parameter_none_value_as_absent
    (l l' : Location) (k : string) (before after : list Param) (p : Param) :
  parameters l = before ++ p :: after ->
  (forall q, In q before -> key q <> k) ->
  key p = k ->
  value p = None ->
  (forall q, In q (parameters l') -> key q <> k) ->
  get_parameter l k = None /\ get_parameter l k = get_parameter l' k.
Proof.
  intros Hs Hb Hk Hv Habs.
  assert (H1 : get_parameter l k = None).
  { rewrite get_parameter_scan. unfold get_spec.
    rewrite Hs, (scan_first_app _ _ _ Hb Hk). exact Hv. }
  assert (H2 : get_parameter l' k = None).
  { rewrite get_parameter_scan. unfold get_spec.
    apply scan_first_none in Habs. now rewrite Habs. }
  split; [exact H1 | now rewrite H1, H2].
Qed.

Lemma get_parameter_none_value_as_absent_witness :
  get_parameter
    (mkLocation "azureblob"
       [param "accountUrl" "u"; mkParam "accountKey" None; param "accountKey" "K"])
    "accountKey" = None
  /\
  get_parameter
    (mkLocation "azureblob"
       [param "accountUrl" "u"; mkParam "accountKey" None; param "accountKey" "K"])
    "accountKey"
  = get_parameter (mkLocation "azureblob" [param "accountUrl" "u"]) "accountKey".
Proof.
  apply (@get_parameter_none_value_as_absent
           (mkLocation "azureblob"
              [param "accountUrl" "u"; mkParam "accountKey" None; param "accountKey" "K"])
           (mkLocation "azureblob" [param "accountUrl" "u"])
           "accountKey"
           [param "accountUrl" "u"] [param "accountKey" "K"]
           (mkParam "accountKey" None)).
  - reflexivity.
  - simpl. intros q [<-|[]]. simpl. discriminate.
  - reflexivity.
  - reflexivity.
  - simpl. intros q [<-|[]]. simpl. discriminate.
Defined.

(** ** Credential resolution and the container client *)

Section Credentials.

Context {L : Lib}.

Variable w : World.

Lemma resolve_credential_without_token (l : Location) :
  get_parameter l "sasToken" = None ->
  resolve_credential w l = inr (get_parameter l "accountKey").
Proof.
  intros H. unfold resolve_credential. now rewrite H.
Qed.

(** A token without an expiry time: [strptime] receives [None]. *)
Lemma resolve_credential_undated (l : Location) (t : string) :
  get_parameter l "sasToken" = Some t ->
  get_parameter l "expiryTime" = None ->
  resolve_credential w l = inl TypeError.
Proof.
  intros Ht He. unfold resolve_credential. now rewrite Ht, He.
Qed.

Lemma resolve_credential_malformed (l : Location) (t s : string) (e : exn) :
  get_parameter l "sasToken" = Some t ->
  get_parameter l "expiryTime" = Some s ->
  strptime s = inl e ->
  resolve_credential w l = inl e.
Proof.
  intros Ht He Hs. unfold resolve_credential. now rewrite Ht, He, Hs.
Qed.

(** The comparison as the code makes it.  With a token and an expiry time
    that parses: when the parsed time is not before the reading of
    [datetime.now()] the credential is the token, whatever the account key
    is; when it is before that reading the credential is the value of the
    account key.  In both cases, when the account URL and the container
    name are there as well, the client is built with that credential. *)
Theorem sas_token_until_expiry_then_account_key
    (l : Location) (t s : string) (expiry : Z) :
  get_parameter l "sasToken" = Some t ->
  get_parameter l "expiryTime" = Some s ->
  strptime s = inr expiry ->
  ((expiry >= now w)%Z ->
     resolve_credential w l = inr (Some t) /\
     forall u n,
       get_parameter l "accountUrl" = Some u ->
       get_parameter l "containerName" = Some n ->
       _get_container w l = inr (mkContainerClient u n t))
  /\
  ((expiry < now w)%Z ->
     resolve_credential w l = inr (get_parameter l "accountKey") /\
     forall u n k,
       get_parameter l "accountUrl" = Some u ->
       get_parameter l "containerName" = Some n ->
       get_parameter l "accountKey" = Some k ->
       _get_container w l = inr (mkContainerClient u n k)).
Proof.
  intros Ht He Hs.
  assert (R : resolve_credential w l =
              if (expiry >=? now w)%Z then inr (Some t)
              else inr (get_parameter l "accountKey")).
  { unfold resolve_credential. now rewrite Ht, He, Hs. }
  split; intros Hcmp.
  - assert (G : (expiry >=? now w)%Z = true) by (apply Z.geb_le; lia).
    rewrite G in R. split; [exact R|].
    intros u n Hu Hn. unfold _get_container. now rewrite R, Hu, Hn.
  - assert (G : (expiry >=? now w)%Z = false).
    { destruct (expiry >=? now w)%Z eqn:E; [apply Z.geb_le in E; lia | reflexivity]. }
    rewrite G in R. split; [exact R|].
    intros u n k Hu Hn Hk. unfold _get_container. now rewrite R, Hu, Hn, Hk.
Qed.

(** The check of the three values: the client is built exactly when none
    of them is [None]. *)
Lemma _get_container_resolved (l : Location) (cred : option string) :
  resolve_credential w l = inr cred ->
  _get_container w l =
  match get_parameter l "accountUrl", get_parameter l "containerName", cred with
  | Some u, Some n, Some k => inr (mkContainerClient u n k)
  | _, _, _ => inl (ValueError "Parameters missing to create the container.")
  end.
Proof.
  intros R. unfold _get_container. now rewrite R.
Qed.

Lemma get_data_azureblob (a : Asset) (l : Location) (v : option string) :
  location a = Some l ->
  type l = "azureblob" ->
  get_data w a v = _get_data_from_container w a l v.
Proof.
  intros Hl Ht. unfold get_data. rewrite Hl, Ht. reflexivity.
Qed.

Lemma get_data_without_container
    (a : Asset) (l : Location) (v : option string) (e : exn) :
  location a = Some l ->
  type l = "azureblob" ->
  _get_container w l = inl e ->
  get_data w a v = ([], inl e).
Proof.
  intros Hl Ht Hc. rewrite (get_data_azureblob _ _ Hl Ht).
  unfold _get_data_from_container. rewrite Hc. reflexivity.
Qed.

(** C6, as the code has it.  For a location of type [azureblob], when the
    account URL or the container name is [None], or the credential
    resolves to [None], [get_data] fails and has performed no network
    operation, with or without a requested version; whenever the
    resolution of the credential itself returns (there is no token, or the
    expiry time of the token is there and parses), the failure is the
    [ValueError] of the check of the three values. *)
Theorem missing_configuration_before_io
    (a : Asset) (l : Location) (v : option string) :
  location a = Some l ->
  type l = "azureblob" ->
  get_parameter l "accountUrl" = None \/
  get_parameter l "containerName" = None \/
  resolve_credential w l = inr None ->
  (exists e, get_data w a v = ([], inl e))
  /\
  (forall cred,
     resolve_credential w l = inr cred ->
     get_data w a v =
     ([], inl (ValueError "Parameters missing to create the container."))).
Proof.
  intros Hl Ht Hmiss.
  assert (Hval : forall cred,
             resolve_credential w l = inr cred ->
             _get_container w l =
             inl (ValueError "Parameters missing to create the container.")).
  { intros cred R. rewrite (_get_container_resolved _ R).
    destruct Hmiss as [H|[H|H]].
    - now rewrite H.
    - rewrite H. destruct (get_parameter l "accountUrl"); reflexivity.
    - rewrite R in H. injection H as ->.
      destruct (get_parameter l "accountUrl"), (get_parameter l "containerName");
        reflexivity. }
  split.
  - destruct (resolve_credential w l) as [e|cred] eqn:R.
    + exists e. apply get_data_without_container with (l := l); auto.
      unfold _get_container. now rewrite R.
    + eexists. apply get_data_without_container with (l := l); auto.
      exact (Hval cred eq_refl).
  - intros cred R. apply get_data_without_container with (l := l); auto.
    exact (Hval cred R).
Qed.

(** C7.  For a location of type [url] the requested version does not reach
    the retrieval: the call with any version is the call without one, in
    its events and in its outcome. *)
Theorem url_version_ignored (a : Asset) (l : Location) (v : string) :
  location a = Some l ->
  type l = "url" ->
  get_data w a (Some v) = get_data w a None.
Proof.
  intros Hl Ht. unfold get_data. rewrite Hl, Ht. reflexivity.
Qed.

End Credentials.

(** ** The retrieval monad *)

Lemma bind_ok {A B} (m : M A) (k : A -> M B) (t : list event) (a : A) :
  m = (t, inr a) -> bind m k = (t ++ trace (k a), outcome (k a)).
Proof.
  intros ->. unfold bind, trace, outcome. destruct (k a); reflexivity.
Qed.

Lemma bind_fail {A B} (m : M A) (k : A -> M B) (t : list event) (e : exn) :
  m = (t, inl e) -> bind m k = (t, inl e).
Proof.
  intros ->. reflexivity.
Qed.

Lemma run_eta {A} (m : M A) : m = (trace m, outcome m).
Proof.
  destruct m; reflexivity.
Qed.

(** An [except pd.errors.ParserError] clause changes the exception only:
    its handler performs nothing. *)
Lemma trace_catch_parser_error {A} (m : M A) (msg : string) :
  trace (try_except m (catch_parser_error msg)) = trace m.
Proof.
  destruct m as [t [e|a]]; simpl; [|reflexivity].
  destruct e; simpl; try reflexivity. apply app_nil_r.
Qed.

Lemma try_except_ok {A} (m : M A) (h : exn -> option (M A)) (t : list event) (a : A) :
  m = (t, inr a) -> try_except m h = (t, inr a).
Proof.
  intros ->. reflexivity.
Qed.

(** ** Splitting a trace at a download *)

Lemma download_in_trace (pre post : list event) (n : string) :
  existsb is_download (pre ++ EvDownloadBlob n :: post) = true.
Proof.
  rewrite existsb_app. simpl. apply orb_true_r.
Qed.

Lemma split_at_download (l1 l2 pre post : list event) (n : string) :
  existsb is_download l1 = false ->
  forallb is_download l2 = true ->
  l1 ++ l2 = pre ++ EvDownloadBlob n :: post ->
  exists rest, pre = l1 ++ rest /\ forallb is_download rest = true.
Proof.
  revert pre. induction l1 as [|x l1 IH]; intros pre H1 H2 E.
  - exists pre. split; [reflexivity|]. simpl in E. rewrite E in H2.
    rewrite forallb_app in H2. now apply andb_true_iff in H2.
  - simpl in H1. apply orb_false_iff in H1 as [Hx H1].
    destruct pre as [|y pre]; simpl in E; injection E as -> E.
    + discriminate.
    + destruct (IH pre H1 H2 E) as (rest & -> & Hr). now exists rest.
Qed.

Lemma no_download_in_properties (cs : list Content) :
  existsb is_download (get_properties_events cs) = false.
Proof.
  induction cs; simpl; auto.
Qed.

Lemma all_downloads (ns : list string) :
  forallb is_download (download_events ns) = true.
Proof.
  induction ns; simpl; auto.
Qed.

(** ** The validation loop *)

Section Validation.

Variable w : World.
Variable c : ContainerClient.

Lemma check_content_fresh (e : Content) :
  fresh w c e = true ->
  check_content w c e =
  ([EvGetBlobProperties (content_name e)], inr (BlobClient (content_name e))).
Proof.
  unfold fresh, check_content, get_blob_properties, perform.
  destruct (find_blob (storage w c) (content_name e)) as [b|]; [|discriminate].
  intros H. simpl.
  replace (blob_last_modified b >? content_last_modified e)%Z with false.
  - reflexivity.
  - symmetry. rewrite Z.gtb_ltb. apply Z.ltb_ge. now apply Z.leb_le.
Qed.

Lemma check_content_stale (e : Content) :
  fresh w c e = false ->
  check_content w c e =
  ([EvGetBlobProperties (content_name e)],
   inl (FileNotFoundError (Some (not_found_message (content_name e))))).
Proof.
  unfold fresh, check_content, get_blob_properties, perform.
  destruct (find_blob (storage w c) (content_name e)) as [b|].
  - intros H. simpl.
    replace (blob_last_modified b >? content_last_modified e)%Z with true.
    + reflexivity.
    + symmetry. rewrite Z.gtb_ltb. apply Z.ltb_lt. apply Z.leb_gt in H. lia.
  - reflexivity.
Qed.

Lemma check_contents_fresh (cs : list Content) (blob_list : list BlobHandle) :
  forallb (fresh w c) cs = true ->
  check_contents w c cs blob_list =
  (get_properties_events cs, inr (blob_list ++ clients cs)).
Proof.
  revert blob_list. induction cs as [|e cs IH]; intros blob_list H; simpl.
  - unfold ret. now rewrite app_nil_r.
  - simpl in H. apply andb_true_iff in H as [He Hcs].
    rewrite (bind_ok _ (check_content_fresh _ He)), (IH _ Hcs).
    unfold trace, outcome. simpl. now rewrite <- app_assoc.
Qed.

Lemma check_contents_stale (cs : list Content) (blob_list : list BlobHandle) :
  forallb (fresh w c) cs = false ->
  exists good bad rest,
    cs = good ++ bad :: rest /\
    forallb (fresh w c) good = true /\
    fresh w c bad = false /\
    check_contents w c cs blob_list =
    (get_properties_events (good ++ [bad]),
     inl (FileNotFoundError (Some (not_found_message (content_name bad))))).
Proof.
  revert blob_list. induction cs as [|e cs IH]; intros blob_list H; simpl in H.
  - discriminate.
  - destruct (fresh w c e) eqn:He.
    + simpl in H. destruct (IH (blob_list ++ [BlobClient (content_name e)]) H)
        as (good & bad & rest & -> & Hg & Hb & Hrun).
      exists (e :: good), bad, rest. repeat split; auto.
      * simpl. now rewrite He, Hg.
      * simpl. rewrite (bind_ok _ (check_content_fresh _ He)), Hrun.
        reflexivity.
    + exists [], e, cs. repeat split; auto.
      simpl. now rewrite (bind_fail _ (check_content_stale _ He)).
Qed.

End Validation.

(** ** The download loop *)

Section Loading.

Context {L : Lib}.

Variable w : World.
Variable c : ContainerClient.

Lemma load_csv_run (h : BlobHandle) :
  load_csv w c h =
  ([EvDownloadBlob (handle_name h)], current_table w c "csv" (handle_name h)).
Proof.
  unfold load_csv, download_blob, perform, current_table, parse, parse_csv, lift.
  simpl. destruct (find_blob (storage w c) (handle_name h)) as [b|]; simpl;
    [|reflexivity].
  destruct (decode (blob_content b)) as [e|text]; simpl; [reflexivity|].
  destruct (sniff text) as [e|d]; simpl; [reflexivity|].
  destruct (read_csv (blob_content b) d); reflexivity.
Qed.

Lemma load_json_run (h : BlobHandle) :
  load_json w c h =
  ([EvDownloadBlob (handle_name h)], current_table w c "json" (handle_name h)).
Proof.
  unfold load_json, download_blob, perform, current_table, parse, lift.
  simpl. destruct (find_blob (storage w c) (handle_name h)) as [b|]; simpl;
    [|reflexivity].
  destruct (read_json (blob_content b)); reflexivity.
Qed.

Section Loop.

Variable body : BlobHandle -> M DataFrame.
Variable res : string -> exn + DataFrame.
Hypothesis body_run :
  forall h, body h = ([EvDownloadBlob (handle_name h)], res (handle_name h)).

Lemma for_each_ok (hs : list BlobHandle) (dfs acc : list DataFrame) :
  map res (map handle_name hs) = map inr dfs ->
  for_each body hs acc =
  (download_events (map handle_name hs), inr (acc ++ dfs)).
Proof.
  revert dfs acc. induction hs as [|h hs IH]; intros dfs acc H.
  - destruct dfs; [|discriminate]. simpl. unfold ret. now rewrite app_nil_r.
  - destruct dfs as [|df dfs]; [discriminate|]. simpl in H.
    injection H as Hh Hrest. simpl.
    rewrite body_run, Hh.
    rewrite (bind_ok _ eq_refl), (IH _ _ Hrest).
    unfold trace, outcome. simpl. now rewrite <- app_assoc.
Qed.

Lemma for_each_downloads_only (hs : list BlobHandle) (acc : list DataFrame) :
  forallb is_download (trace (for_each body hs acc)) = true.
Proof.
  revert acc. induction hs as [|h hs IH]; intros acc; simpl.
  - reflexivity.
  - rewrite body_run. destruct (res (handle_name h)) as [e|df].
    + reflexivity.
    + rewrite (bind_ok _ eq_refl). unfold trace at 1. simpl. apply IH.
Qed.

End Loop.

(** The [try] block on a supported format: one loop, whose body is
    [load_csv] or [load_json]. *)
Lemma load_all_handles_ok
    (a : Asset) (fmt : string) (hs : list BlobHandle) (dfs : list DataFrame) :
  format a = Some fmt ->
  supported fmt = true ->
  map (current_table w c fmt) (map handle_name hs) = map inr dfs ->
  load_all w c a (Handles hs) = (download_events (map handle_name hs), inr dfs).
Proof.
  intros Hf Hs Hd. unfold load_all, format_is. rewrite Hf.
  unfold supported in Hs.
  destruct (String.eqb_spec fmt "csv") as [->|Ncsv].
  - simpl. rewrite (@for_each_ok _ _ load_csv_run _ _ [] Hd). reflexivity.
  - destruct (String.eqb_spec fmt "json") as [->|Njson]; [|discriminate].
    simpl. rewrite (@for_each_ok _ _ load_json_run _ _ [] Hd). reflexivity.
Qed.

Lemma load_all_pager_ok
    (a : Asset) (fmt : string) (dfs : list DataFrame) :
  format a = Some fmt ->
  supported fmt = true ->
  map (current_table w c fmt) (map handle_name (listed w c)) = map inr dfs ->
  load_all w c a (Pager c) =
  (EvListBlobs :: download_events (map handle_name (listed w c)), inr dfs).
Proof.
  intros Hf Hs Hd. unfold load_all, format_is. rewrite Hf.
  unfold supported in Hs.
  destruct (String.eqb_spec fmt "csv") as [->|Ncsv].
  - simpl. rewrite (@for_each_ok _ _ load_csv_run _ _ [] Hd). reflexivity.
  - destruct (String.eqb_spec fmt "json") as [->|Njson]; [|discriminate].
    simpl. rewrite (@for_each_ok _ _ load_json_run _ _ [] Hd). reflexivity.
Qed.

Lemma load_all_unsupported (a : Asset) (bl : BlobList) :
  format_is a "csv" = false ->
  format_is a "json" = false ->
  load_all w c a bl = ([], inl NotImplementedError).
Proof.
  intros H1 H2. unfold load_all. now rewrite H1, H2.
Qed.

(** Whatever the format and the outcome, the [try] block run on collected
    clients performs downloads only. *)
Lemma load_all_handles_downloads_only (a : Asset) (hs : list BlobHandle) :
  forallb is_download (trace (load_all w c a (Handles hs))) = true.
Proof.
  unfold load_all. rewrite trace_catch_parser_error.
  destruct (format_is a "csv").
  - unfold iterate, ret. rewrite (bind_ok _ eq_refl). unfold trace at 1. simpl.
    apply (@for_each_downloads_only _ _ load_csv_run).
  - destruct (format_is a "json").
    + unfold iterate, ret. rewrite (bind_ok _ eq_refl). unfold trace at 1. simpl.
      apply (@for_each_downloads_only _ _ load_json_run).
    + reflexivity.
Qed.

End Loading.

(** ** Concatenation of tables *)

Lemma length_reindexed_rows (target : list string) (dfs : list DataFrame) :
  List.length (flat_map (reindexed_rows target) dfs) = list_sum (map nrows dfs).
Proof.
  induction dfs as [|df dfs IH]; simpl; [reflexivity|].
  rewrite length_app, IH. unfold reindexed_rows, nrows. now rewrite length_map.
Qed.

(** The rows of a concatenation are the rows of the frames, frame after
    frame in the order of the list, and their number is the sum of the
    numbers of rows of the frames. *)
Lemma pd_concat_rows (dfs : list DataFrame) (t : DataFrame) :
  pd_concat dfs = inr t ->
  rows t = flat_map (reindexed_rows (columns t)) dfs /\
  nrows t = list_sum (map nrows dfs).
Proof.
  destruct dfs as [|df dfs]; [discriminate|]. intros [= <-].
  split; [reflexivity|].
  apply (length_reindexed_rows (all_columns (df :: dfs)) (df :: dfs)).
Qed.

Lemma pd_concat_nonempty (dfs : list DataFrame) :
  dfs <> [] ->
  pd_concat dfs =
  inr (mkDataFrame (all_columns dfs)
         (flat_map (reindexed_rows (all_columns dfs)) dfs)).
Proof.
  destruct dfs; [congruence | reflexivity].
Qed.

(** ** Retrieval from a container *)

Section Container.

Context {L : Lib}.

Variable w : World.

(** The course of a fetch of a version once the client is built and the
    version service has answered. *)
Lemma versioned_run (a : Asset) (l : Location) (v : string)
    (c : ContainerClient) (ver : Version) :
  location a = Some l ->
  type l = "azureblob" ->
  _get_container w l = inr c ->
  service_get_version w (id a) v = inr ver ->
  get_data w a (Some v) =
  match check_contents w c (contents ver) [] with
  | (tp, inl e) => (EvGetVersion (id a) v :: tp, inl e)
  | (tp, inr hs) =>
      (EvGetVersion (id a) v :: tp ++ trace (load_all w c a (Handles hs)),
       finish (outcome (load_all w c a (Handles hs))))
  end.
Proof.
  intros Hl Ht Hc Hv. rewrite (get_data_azureblob _ _ _ Hl Ht).
  unfold _get_data_from_container, get_version, perform, lift.
  rewrite Hc, Hv. simpl.
  destruct (check_contents w c (contents ver) []) as [tp [e|hs]]; simpl.
  - reflexivity.
  - rewrite app_nil_r.
    destruct (load_all w c a (Handles hs)) as [tl [e|dfs]]; simpl.
    + reflexivity.
    + destruct (pd_concat dfs); simpl; now rewrite app_nil_r.
Qed.

Lemma unversioned_run (a : Asset) (l : Location) (c : ContainerClient) :
  location a = Some l ->
  type l = "azureblob" ->
  _get_container w l = inr c ->
  get_data w a None =
  (trace (load_all w c a (Pager c)), finish (outcome (load_all w c a (Pager c)))).
Proof.
  intros Hl Ht Hc. rewrite (get_data_azureblob _ _ _ Hl Ht).
  unfold _get_data_from_container, lift. rewrite Hc. simpl.
  destruct (load_all w c a (Pager c)) as [tl [e|dfs]]; simpl.
  - reflexivity.
  - destruct (pd_concat dfs); simpl; now rewrite app_nil_r.
Qed.

End Container.

(** ** Fetching a version *)

Lemma fresh_true_iff (w : World) (c : ContainerClient) (e : Content) :
  fresh w c e = true <->
  exists b,
    find_blob (storage w c) (content_name e) = Some b /\
    (blob_last_modified b <= content_last_modified e)%Z.
Proof.
  unfold fresh. destruct (find_blob (storage w c) (content_name e)) as [b|].
  - rewrite Z.leb_le. split.
    + intros H. now exists b.
    + intros (b' & [= <-] & H). exact H.
  - split; [discriminate | intros (b & H & _); discriminate].
Qed.

Lemma fresh_false_iff (w : World) (c : ContainerClient) (e : Content) :
  fresh w c e = false <-> missing w c e \/ modified_since w c e.
Proof.
  unfold fresh, missing, modified_since.
  destruct (find_blob (storage w c) (content_name e)) as [b|].
  - rewrite Z.leb_gt. split.
    + intros H. right. exists b. split; [reflexivity | lia].
    + intros [H | (b' & [= <-] & H)]; [discriminate | lia].
  - split; auto.
Qed.

Lemma forallb_false_in {A} (f : A -> bool) (x : A) (l : list A) :
  In x l -> f x = false -> forallb f l = false.
Proof.
  intros Hin Hx. destruct (forallb f l) eqn:E; [|reflexivity].
  rewrite forallb_forall in E. rewrite (E x Hin) in Hx. discriminate.
Qed.

Section Versions.

Context {L : Lib}.

Variable w : World.

Lemma versioned_stale_run (a : Asset) (l : Location) (v : string)
    (c : ContainerClient) (ver : Version) :
  location a = Some l ->
  type l = "azureblob" ->
  _get_container w l = inr c ->
  service_get_version w (id a) v = inr ver ->
  forallb (fresh w c) (contents ver) = false ->
  exists good bad rest,
    contents ver = good ++ bad :: rest /\
    forallb (fresh w c) good = true /\
    fresh w c bad = false /\
    get_data w a (Some v) =
    (EvGetVersion (id a) v :: get_properties_events (good ++ [bad]),
     inl (FileNotFoundError (Some (not_found_message (content_name bad))))).
Proof.
  intros Hl Ht Hc Hv Hst.
  destruct (check_contents_stale w c (contents ver) [] Hst)
    as (good & bad & rest & Hs & Hg & Hb & Hrun).
  exists good, bad, rest. repeat split; auto.
  rewrite (versioned_run _ _ _ Hl Ht Hc Hv), Hrun. reflexivity.
Qed.

(** C1.  In a fetch of a version from a container, once the client is built
    and the version service has returned the version: if some entry of the
    version names a blob that the store does not hold, or one whose
    modification time is strictly later than the recorded one, then
    [get_data] raises [FileNotFoundError] for the first such entry, returns
    no table, and has downloaded nothing. *)
Theorem stale_or_missing_entry_fails (a : Asset) (l : Location) (v : string)
    (c : ContainerClient) (ver : Version) (e : Content) :
  location a = Some l ->
  type l = "azureblob" ->
  _get_container w l = inr c ->
  service_get_version w (id a) v = inr ver ->
  In e (contents ver) ->
  missing w c e \/ modified_since w c e ->
  exists good bad rest,
    contents ver = good ++ bad :: rest /\
    forallb (fresh w c) good = true /\
    (missing w c bad \/ modified_since w c bad) /\
    outcome (get_data w a (Some v)) =
      inl (FileNotFoundError (Some (not_found_message (content_name bad)))) /\
    existsb is_download (trace (get_data w a (Some v))) = false.
Proof.
  intros Hl Ht Hc Hv Hin Hbad.
  apply fresh_false_iff in Hbad.
  pose proof (forallb_false_in _ _ _ Hin Hbad) as Hst.
  destruct (versioned_stale_run _ _ Hl Ht Hc Hv Hst)
    as (good & bad & rest & Hs & Hg & Hb & Hrun).
  exists good, bad, rest. rewrite Hrun. repeat split; auto.
  - now apply fresh_false_iff.
  - unfold trace. simpl. apply no_download_in_properties.
Qed.

(** C9.  In a fetch of a version from a container, a download is performed
    only after the client was built, the version was obtained, the
    properties of every entry of the version were requested, in order, and
    every entry was found fresh; between the last of these requests and
    the download there are only downloads.  And when some entry is not
    fresh, the fetch fails and no download appears among its events. *)
Theorem validation_precedes_downloads (a : Asset) (l : Location) (v : string) :
  location a = Some l ->
  type l = "azureblob" ->
  (forall pre n post,
     trace (get_data w a (Some v)) = pre ++ EvDownloadBlob n :: post ->
     exists c ver rest,
       _get_container w l = inr c /\
       service_get_version w (id a) v = inr ver /\
       forallb (fresh w c) (contents ver) = true /\
       pre = EvGetVersion (id a) v :: get_properties_events (contents ver) ++ rest /\
       forallb is_download rest = true)
  /\
  (forall c ver,
     _get_container w l = inr c ->
     service_get_version w (id a) v = inr ver ->
     forallb (fresh w c) (contents ver) = false ->
     existsb is_download (trace (get_data w a (Some v))) = false /\
     exists e, outcome (get_data w a (Some v)) = inl e).
Proof.
  intros Hl Ht. split.
  - intros pre n post Hsplit.
    pose proof (download_in_trace pre post n) as Hdl. rewrite <- Hsplit in Hdl.
    destruct (_get_container w l) as [e|c] eqn:Hc.
    { rewrite (get_data_without_container _ _ _ Hl Ht Hc) in Hdl. discriminate. }
    destruct (service_get_version w (id a) v) as [e|ver] eqn:Hv.
    { rewrite (get_data_azureblob _ _ _ Hl Ht) in Hdl.
      unfold _get_data_from_container, get_version, perform, lift in Hdl.
      rewrite Hc, Hv in Hdl. discriminate. }
    destruct (forallb (fresh w c) (contents ver)) eqn:Hfr.
    + exists c, ver.
      rewrite (versioned_run _ _ _ Hl Ht Hc Hv) in Hsplit.
      rewrite (check_contents_fresh _ _ _ _ Hfr) in Hsplit.
      unfold trace at 1 in Hsplit. simpl in Hsplit.
      destruct pre as [|x pre]; simpl in Hsplit; [discriminate|].
      injection Hsplit as <- Hsplit.
      destruct (split_at_download _ _ _ _ _
                  (no_download_in_properties (contents ver))
                  (load_all_handles_downloads_only w c a (clients (contents ver)))
                  Hsplit) as (rest & -> & Hrest).
      exists rest. repeat split; auto.
    + destruct (versioned_stale_run _ _ Hl Ht Hc Hv Hfr)
        as (good & bad & rest & _ & _ & _ & Hrun).
      rewrite Hrun in Hdl. unfold trace in Hdl. simpl in Hdl.
      rewrite no_download_in_properties in Hdl. discriminate.
  - intros c ver Hc Hv Hfr.
    destruct (versioned_stale_run _ _ Hl Ht Hc Hv Hfr)
      as (good & bad & rest & _ & _ & _ & Hrun).
    rewrite Hrun. split.
    + unfold trace. simpl. apply no_download_in_properties.
    + eexists. reflexivity.
Qed.

End Versions.

(** ** Successful fetches *)

Lemma mem_in (n : string) (ns : list string) : In n ns -> mem n ns = true.
Proof.
  intros H. unfold mem. apply existsb_exists. exists n. split; [exact H|].
  apply String.eqb_refl.
Qed.

(** In a listing without repeated names every blob is the one found under
    its own name. *)
Lemma find_blob_listed (bs : list Blob) (b : Blob) :
  distinct (map blob_name bs) = true ->
  In b bs ->
  find_blob bs (blob_name b) = Some b.
Proof.
  induction bs as [|x bs IH]; intros Hd Hin; [destruct Hin|].
  simpl in Hd. apply andb_true_iff in Hd as [Hx Hd].
  unfold find_blob. simpl.
  destruct (String.eqb_spec (blob_name x) (blob_name b)) as [E|N].
  - destruct Hin as [->|Hin]; [reflexivity|].
    rewrite E, (mem_in _ _ (in_map blob_name _ _ Hin)) in Hx. discriminate.
  - destruct Hin as [->|Hin]; [congruence|]. now apply IH.
Qed.

Section Fetch.

Context {L : Lib}.

Variable w : World.

Lemma listed_tables (c : ContainerClient) (fmt : string) :
  distinct (map blob_name (storage w c)) = true ->
  map (current_table w c fmt) (map handle_name (listed w c)) =
  map (fun b => parse fmt (blob_content b)) (storage w c).
Proof.
  intros Hd. unfold listed. rewrite !map_map. apply map_ext_in.
  intros b Hin. unfold current_table. simpl.
  now rewrite (find_blob_listed _ _ Hd Hin).
Qed.

Lemma listed_names (c : ContainerClient) :
  map handle_name (listed w c) = map blob_name (storage w c).
Proof.
  unfold listed. rewrite map_map. reflexivity.
Qed.



(** C5, as the code has it.  In a fetch without a version, once the client
    is built: if the format is [csv] or [json], the container lists at
    least one blob, no two listed blobs have the same name, and every
    listed blob parses to a table, then [get_data] lists the container,
    downloads every listed blob in the order of the listing, and returns
    the concatenation of the tables in that order; its number of rows is
    the sum of theirs. *)
Theorem unversioned_fetch_in_listing_order
    (a : Asset) (l : Location) (c : ContainerClient)
    (fmt : string) (dfs : list DataFrame) :
  location a = Some l ->
  type l = "azureblob" ->
  _get_container w l = inr c ->
  format a = Some fmt ->
  supported fmt = true ->
  storage w c <> [] ->
  distinct (map blob_name (storage w c)) = true ->
  map (fun b => parse fmt (blob_content b)) (storage w c) = map inr dfs ->
  exists t,
    get_data w a None =
      (EvListBlobs :: download_events (map blob_name (storage w c)), inr t) /\
    columns t = all_columns dfs /\
    rows t = flat_map (reindexed_rows (all_columns dfs)) dfs /\
    nrows t = list_sum (map nrows dfs).
Proof.
  intros Hl Ht Hc Hf Hs Hne Hdist Hd.
  exists (mkDataFrame (all_columns dfs)
            (flat_map (reindexed_rows (all_columns dfs)) dfs)).
  assert (Hdfs : dfs <> []).
  { intros ->. destruct (storage w c); [congruence | discriminate]. }
  rewrite (unversioned_run _ _ Hl Ht Hc).
  rewrite <- (listed_tables c fmt Hdist) in Hd.
  rewrite (load_all_pager_ok _ _ _ _ Hf Hs Hd).
  unfold trace, outcome, finish. simpl fst. simpl snd.
  rewrite listed_names, (pd_concat_nonempty Hdfs).
  repeat split.
  apply (length_reindexed_rows (all_columns dfs) dfs).
Qed.

End Fetch.

(** ** Concatenation of tables of one schema *)









(** * Further properties *)

(** ** Lookup in concatenated and extended parameter lists *)

Lemma scan_first_skip (ps qs : list Param) (k : string) :
  (forall p, In p ps -> key p <> k) ->
  scan_first (ps ++ qs) k = scan_first qs k.
Proof.
  intros H. induction ps as [|p ps IH]; simpl; [reflexivity|].
  destruct (String.eqb_spec (key p) k) as [E|N].
  - exfalso. apply (H p); simpl; auto.
  - apply IH. intros q Hq. apply H. now right.
Qed.

Lemma scan_first_keep (ps qs : list Param) (k : string) (p : Param) :
  scan_first ps k = Some p -> scan_first (ps ++ qs) k = Some p.
Proof.
  induction ps as [|q ps IH]; simpl; [discriminate|].
  destruct (String.eqb (key q) k); auto.
Qed.

(** X1.  Lookup in a concatenation of parameter lists: when the first list
    holds a parameter of the key, the second list is not consulted, even if
    the value found is [None]; when it holds none, the lookup is the lookup
    in the second list. *)
Theorem get_parameter_app (t : string) (ps qs : list Param) (k : string) :
  ((exists p, In p ps /\ key p = k) ->
   get_parameter (mkLocation t (ps ++ qs)) k = get_parameter (mkLocation t ps) k)
  /\
  ((forall p, In p ps -> key p <> k) ->
   get_parameter (mkLocation t (ps ++ qs)) k = get_parameter (mkLocation t qs) k).
Proof.
  rewrite !get_parameter_scan. unfold get_spec. simpl. split.
  - intros (p & Hin & Hk).
    destruct (scan_first ps k) as [q|] eqn:E.
    + now rewrite (@scan_first_keep ps qs k q E).
    + exfalso. rewrite scan_first_none in E. now apply (E p).
  - intros H. now rewrite (@scan_first_skip ps qs k H).
Qed.

(** X2.  A value returned by [get_parameter] is the value of a parameter
    of the location that carries the requested key. *)
Theorem get_parameter_some_in (l : Location) (k v : string) :
  get_parameter l k = Some v ->
  In (mkParam k (Some v)) (parameters l).
Proof.
  rewrite get_parameter_scan. unfold get_spec.
  destruct (scan_first (parameters l) k) as [p|] eqn:E; [|discriminate].
  intros Hv. destruct (scan_first_some _ _ E) as (before & after & Hs & Hk & _).
  rewrite Hs. apply in_or_app. right. left.
  destruct p as [k' v']. simpl in *. now subst.
Qed.

(** ** The container client *)

Section Client.

Context {L : Lib}.

Variable w : World.

(** X3.  A client that [_get_container] builds carries the account URL and
    the container name of the location, and its credential is either the
    token, whose expiry time parsed and is not before the current time, or
    the account key, used when there is no token or when the token's
    expiry time parsed and is before the current time. *)
Theorem get_container_inversion (l : Location) (c : ContainerClient) :
  _get_container w l = inr c ->
  get_parameter l "accountUrl" = Some (account_url c) /\
  get_parameter l "containerName" = Some (container_name c) /\
  ((exists s expiry,
      get_parameter l "sasToken" = Some (credential c) /\
      get_parameter l "expiryTime" = Some s /\
      strptime s = inr expiry /\
      (expiry >= now w)%Z)
   \/
   (get_parameter l "accountKey" = Some (credential c) /\
    (get_parameter l "sasToken" = None \/
     exists s expiry,
       get_parameter l "expiryTime" = Some s /\
       strptime s = inr expiry /\
       (expiry < now w)%Z))).
Proof.
  unfold _get_container, resolve_credential.
  destruct (get_parameter l "sasToken") as [t|] eqn:Ht.
  - destruct (get_parameter l "expiryTime") as [s|] eqn:Hs; [|discriminate].
    destruct (strptime s) as [e|expiry] eqn:Hp; [discriminate|].
    destruct (expiry >=? now w)%Z eqn:Hcmp.
    + destruct (get_parameter l "accountUrl") as [u|]; [|discriminate].
      destruct (get_parameter l "containerName") as [n|]; [|discriminate].
      intros [= <-]. simpl. repeat split. left. exists s, expiry.
      repeat split; auto. apply Z.geb_le in Hcmp. lia.
    + destruct (get_parameter l "accountUrl") as [u|]; [|discriminate].
      destruct (get_parameter l "containerName") as [n|]; [|discriminate].
      destruct (get_parameter l "accountKey") as [k|]; [|discriminate].
      intros [= <-]. simpl. repeat split. right. split; [reflexivity|].
      right. exists s, expiry. repeat split; auto.
      destruct (Z.geb_spec expiry (now w)); [discriminate | lia].
  - destruct (get_parameter l "accountUrl") as [u|]; [|discriminate].
    destruct (get_parameter l "containerName") as [n|]; [|discriminate].
    destruct (get_parameter l "accountKey") as [k|]; [|discriminate].
    intros [= <-]. simpl. repeat split. right. auto.
Qed.

(** X5.  A token whose expiry time does not parse makes the fetch from a
    container end with the exception of [strptime], before any network
    operation, also when an account key is there. *)
Theorem malformed_expiry_fails_before_io
    (a : Asset) (l : Location) (v : option string) (t s : string) (e : exn) :
  location a = Some l ->
  type l = "azureblob" ->
  get_parameter l "sasToken" = Some t ->
  get_parameter l "expiryTime" = Some s ->
  strptime s = inl e ->
  get_data w a v = ([], inl e).
Proof.
  intros Hl Ht Htok Hexp Hp.
  apply get_data_without_container with (l := l); auto.
  unfold _get_container.
  now rewrite (resolve_credential_malformed w l Htok Hexp Hp).
Qed.

End Client.

(** X4.  Without a token the expiry time is not read and the clock is not
    consulted: the outcome of [_get_container] is the same under every
    library and in every world. *)
Theorem no_token_ignores_clock_and_expiry
    (L1 L2 : Lib) (w1 w2 : World) (l : Location) :
  get_parameter l "sasToken" = None ->
  @_get_container L1 w1 l = @_get_container L2 w2 l.
Proof.
  intros H. unfold _get_container, resolve_credential. now rewrite H.
Qed.

(** ** Fetching from a URL *)

Lemma outcome_catch_parser_error {A} (m : M A) (msg : string) :
  outcome (try_except m (catch_parser_error msg)) = reraise msg (outcome m).
Proof.
  destruct m as [t [e|a]]; simpl; [|reflexivity].
  destruct e; reflexivity.
Qed.

Lemma reraise_not_parser_error {A} (msg : string) (r : exn + A) :
  reraise msg r <> inl ParserError.
Proof.
  destruct r as [e|a]; [destruct e|]; simpl; discriminate.
Qed.

Lemma format_is_supported (a : Asset) (fmt : string) :
  format a = Some fmt ->
  supported fmt = format_is a "csv" || format_is a "json".
Proof.
  intros H. unfold format_is, supported. now rewrite H.
Qed.

Section Url.

Context {L : Lib}.

Variable w : World.

Lemma get_data_url (a : Asset) (l : Location) (v : option string) :
  location a = Some l ->
  type l = "url" ->
  get_data w a v = _get_data_from_url w a l.
Proof.
  intros Hl Ht. unfold get_data. now rewrite Hl, Ht.
Qed.


(** X7.  A fetch from a URL sends nothing when it cannot succeed for lack
    of configuration: without a [url] parameter it raises [ValueError],
    whatever the format; with one and a format other than [csv] and
    [json] it raises [NotImplementedError]. *)
Theorem url_fetch_not_attempted (a : Asset) (l : Location) (v : option string) :
  location a = Some l ->
  type l = "url" ->
  (get_parameter l "url" = None ->
   get_data w a v = ([], inl (ValueError "Location has no url parameter")))
  /\
  (get_parameter l "url" <> None ->
   format_is a "csv" = false ->
   format_is a "json" = false ->
   get_data w a v = ([], inl NotImplementedError)).
Proof.
  intros Hl Ht. rewrite (get_data_url _ _ Hl Ht). unfold _get_data_from_url.
  split.
  - intros ->. reflexivity.
  - intros Hu H1 H2. destruct (get_parameter l "url"); [|congruence].
    now rewrite H1, H2.
Qed.

End Url.

(** ** Failing fetches from a container *)

Section Failing.

Context {L : Lib}.

Variable w : World.

Lemma check_contents_split (c : ContainerClient)
    (good : list Content) (bad : Content) (rest : list Content)
    (blob_list : list BlobHandle) :
  forallb (fresh w c) good = true ->
  fresh w c bad = false ->
  check_contents w c (good ++ bad :: rest) blob_list =
  (get_properties_events (good ++ [bad]),
   inl (FileNotFoundError (Some (not_found_message (content_name bad))))).
Proof.
  revert blob_list. induction good as [|e good IH]; intros blob_list Hg Hb; simpl.
  - now rewrite (bind_fail _ (check_content_stale _ _ _ Hb)).
  - simpl in Hg. apply andb_true_iff in Hg as [He Hg].
    rewrite (bind_ok _ (check_content_fresh _ _ _ He)), (IH _ Hg Hb).
    reflexivity.
Qed.

(** X8.  When the version service raises an exception for the requested
    version, the fetch ends with that exception after the one request to
    the service: no blob is looked at. *)
Theorem version_service_failure
    (a : Asset) (l : Location) (v : string) (c : ContainerClient) (e : exn) :
  location a = Some l ->
  type l = "azureblob" ->
  _get_container w l = inr c ->
  service_get_version w (id a) v = inl e ->
  get_data w a (Some v) = ([EvGetVersion (id a) v], inl e).
Proof.
  intros Hl Ht Hc Hv. rewrite (get_data_azureblob _ _ _ Hl Ht).
  unfold _get_data_from_container, get_version, perform, lift.
  rewrite Hc, Hv. reflexivity.
Qed.

(** X9.  The validation of a version stops at the first entry that is not
    fresh: the properties of the entries before it and of the entry itself
    are requested, in order, those of the entries after it never are, and
    the message of the [FileNotFoundError] names that entry. *)
Theorem validation_stops_at_first_stale_entry
    (a : Asset) (l : Location) (v : string) (c : ContainerClient) (ver : Version)
    (good : list Content) (bad : Content) (rest : list Content) :
  location a = Some l ->
  type l = "azureblob" ->
  _get_container w l = inr c ->
  service_get_version w (id a) v = inr ver ->
  contents ver = good ++ bad :: rest ->
  forallb (fresh w c) good = true ->
  fresh w c bad = false ->
  get_data w a (Some v) =
  (EvGetVersion (id a) v :: get_properties_events (good ++ [bad]),
   inl (FileNotFoundError (Some (not_found_message (content_name bad))))).
Proof.
  intros Hl Ht Hc Hv Hs Hg Hb.
  rewrite (versioned_run _ _ _ Hl Ht Hc Hv), Hs.
  now rewrite (check_contents_split c good bad rest [] Hg Hb).
Qed.

(** X10.  The format is looked at after the blob list is made.  With a
    format other than [csv] and [json], a fetch without a version raises
    [NotImplementedError] without any network operation (the listing is
    never iterated), and a fetch of a version whose entries are all fresh
    raises it after the request to the version service and the requests
    for the properties of every entry. *)
Theorem unsupported_format_after_validation
    (a : Asset) (l : Location) (c : ContainerClient) :
  location a = Some l ->
  type l = "azureblob" ->
  _get_container w l = inr c ->
  format_is a "csv" = false ->
  format_is a "json" = false ->
  get_data w a None = ([], inl NotImplementedError)
  /\
  (forall v ver,
     service_get_version w (id a) v = inr ver ->
     forallb (fresh w c) (contents ver) = true ->
     get_data w a (Some v) =
     (EvGetVersion (id a) v :: get_properties_events (contents ver),
      inl NotImplementedError)).
Proof.
  intros Hl Ht Hc H1 H2. split.
  - rewrite (unversioned_run _ _ Hl Ht Hc), (load_all_unsupported _ _ _ _ H1 H2).
    reflexivity.
  - intros v ver Hv Hfr.
    rewrite (versioned_run _ _ _ Hl Ht Hc Hv), (check_contents_fresh _ _ _ _ Hfr).
    rewrite (load_all_unsupported _ _ _ _ H1 H2).
    unfold trace, outcome. simpl. now rewrite app_nil_r.
Qed.

(** X11.  Nothing to concatenate: with the format [csv] or [json], a fetch
    without a version from a container that lists no blob, and a fetch of
    a version that has no entries, raise the [ValueError] of [pd.concat]
    instead of returning an empty table. *)
Theorem nothing_to_concatenate
    (a : Asset) (l : Location) (c : ContainerClient) (fmt : string) :
  location a = Some l ->
  type l = "azureblob" ->
  _get_container w l = inr c ->
  format a = Some fmt ->
  supported fmt = true ->
  (storage w c = [] ->
   get_data w a None =
   ([EvListBlobs], inl (ValueError "No objects to concatenate")))
  /\
  (forall v ver,
     service_get_version w (id a) v = inr ver ->
     contents ver = [] ->
     get_data w a (Some v) =
     ([EvGetVersion (id a) v], inl (ValueError "No objects to concatenate"))).
Proof.
  intros Hl Ht Hc Hf Hs. split.
  - intros Hst. rewrite (unversioned_run _ _ Hl Ht Hc).
    assert (Hd : map (current_table w c fmt) (map handle_name (listed w c))
                 = map inr []).
    { unfold listed. now rewrite Hst. }
    rewrite (load_all_pager_ok _ _ _ _ Hf Hs Hd).
    unfold listed. rewrite Hst. reflexivity.
  - intros v ver Hv Hcs.
    rewrite (versioned_run _ _ _ Hl Ht Hc Hv), Hcs. simpl.
    assert (Hd : map (current_table w c fmt) (map handle_name []) = map inr [])
      by reflexivity.
    rewrite (load_all_handles_ok _ _ _ _ _ Hf Hs Hd). reflexivity.
Qed.

End Failing.

(** ** The download loop, continued *)

Section LoopMore.

Variable body : BlobHandle -> M DataFrame.
Variable res : string -> exn + DataFrame.
Hypothesis body_run :
  forall h, body h = ([EvDownloadBlob (handle_name h)], res (handle_name h)).

Lemma for_each_fail (good : list BlobHandle) (bad : BlobHandle)
    (rest : list BlobHandle) (dfs acc : list DataFrame) (e : exn) :
  map res (map handle_name good) = map inr dfs ->
  res (handle_name bad) = inl e ->
  for_each body (good ++ bad :: rest) acc =
  (download_events (map handle_name (good ++ [bad])), inl e).
Proof.
  revert dfs acc. induction good as [|h good IH]; intros dfs acc Hg Hb; simpl.
  - rewrite body_run, Hb. reflexivity.
  - destruct dfs as [|df dfs]; [discriminate|]. simpl in Hg.
    injection Hg as Hh Hg.
    rewrite body_run, Hh, (bind_ok _ eq_refl), (IH _ _ Hg Hb). reflexivity.
Qed.

End LoopMore.

Lemma finish_reraise (msg : string) (e : exn) :
  finish (reraise msg (inl e)) = reraise msg (inl e).
Proof.
  destruct e; reflexivity.
Qed.

Section FetchMore.

Context {L : Lib}.

Variable w : World.

Lemma current_table_listed (c : ContainerClient) (fmt : string) (b : Blob) :
  distinct (map blob_name (storage w c)) = true ->
  In b (storage w c) ->
  current_table w c fmt (blob_name b) = parse fmt (blob_content b).
Proof.
  intros Hd Hin. unfold current_table. now rewrite (find_blob_listed _ _ Hd Hin).
Qed.

(** X12.  The download loop stops at the first blob that does not yield a
    table: in a fetch without a version, when the blobs listed before it
    parse and it does not, the blobs up to and including it are
    downloaded, in the order of the listing, the ones after it are not,
    and the fetch ends with the exception of the parse ([ParserError]
    turned into [ValueError]); no table is returned. *)
Theorem load_stops_at_first_failure
    (a : Asset) (l : Location) (c : ContainerClient) (fmt : string)
    (good : list Blob) (bad : Blob) (rest : list Blob)
    (dfs : list DataFrame) (e : exn) :
  location a = Some l ->
  type l = "azureblob" ->
  _get_container w l = inr c ->
  format a = Some fmt ->
  supported fmt = true ->
  storage w c = good ++ bad :: rest ->
  distinct (map blob_name (storage w c)) = true ->
  map (fun b => parse fmt (blob_content b)) good = map inr dfs ->
  parse fmt (blob_content bad) = inl e ->
  get_data w a None =
  (EvListBlobs :: download_events (map blob_name (good ++ [bad])),
   reraise container_message (inl e)).
Proof.
  intros Hl Ht Hc Hf Hs Hst Hd Hg Hb.
  rewrite (unversioned_run _ _ Hl Ht Hc).
  assert (Hgood : map (current_table w c fmt)
                    (map handle_name
                       (map (fun b => BlobProperties (blob_name b) (blob_last_modified b))
                          good))
                  = map inr dfs).
  { rewrite <- Hg, !map_map. apply map_ext_in. intros b Hin. simpl.
    apply current_table_listed; [exact Hd|]. rewrite Hst.
    apply in_or_app. now left. }
  assert (Hbad : current_table w c fmt
                   (handle_name (BlobProperties (blob_name bad) (blob_last_modified bad)))
                 = inl e).
  { simpl. rewrite <- Hb. apply current_table_listed; [exact Hd|]. rewrite Hst.
    apply in_or_app. right. now left. }
  assert (Hnames : forall bs,
             map handle_name
               (map (fun b => BlobProperties (blob_name b) (blob_last_modified b)) bs)
             = map blob_name bs).
  { intros bs. rewrite map_map. reflexivity. }
  assert (Hrun : load_all w c a (Pager c) =
                 (EvListBlobs :: download_events (map blob_name (good ++ [bad])),
                  reraise container_message (inl e))).
  { unfold load_all, format_is, iterate, perform, listed. rewrite Hf, Hst.
    rewrite map_app. simpl map.
    unfold supported in Hs.
    destruct (String.eqb_spec fmt "csv") as [->|Ncsv].
    - rewrite (bind_ok _ eq_refl).
      rewrite (@for_each_fail _ _ (load_csv_run w c) _ _ _ _ [] _ Hgood Hbad).
      unfold trace, outcome. simpl fst. simpl snd.
      rewrite map_app, Hnames. simpl. rewrite map_app. simpl.
      destruct e; simpl; rewrite ?app_nil_r; reflexivity.
    - destruct (String.eqb_spec fmt "json") as [->|Njson]; [|discriminate].
      simpl "||". cbv iota.
      rewrite (bind_ok _ eq_refl).
      rewrite (@for_each_fail _ _ (load_json_run w c) _ _ _ _ [] _ Hgood Hbad).
      unfold trace, outcome. simpl fst. simpl snd.
      rewrite map_app, Hnames. simpl. rewrite map_app. simpl.
      destruct e; simpl; rewrite ?app_nil_r; reflexivity. }
  rewrite Hrun. unfold trace, outcome.
  change (snd (EvListBlobs :: download_events (map blob_name (good ++ [bad])),
               @reraise (list DataFrame) container_message (inl e)))
    with (@reraise (list DataFrame) container_message (inl e)).
  now rewrite finish_reraise.
Qed.


End FetchMore.

(** ** What a fetch never does *)

Lemma finish_not_parser_error (r : exn + list DataFrame) :
  r <> inl ParserError -> finish r <> inl ParserError.
Proof.
  destruct r as [e|[|df dfs]]; simpl; intros H; [|discriminate|discriminate].
  intros [= ->]. now apply H.
Qed.

Section Never.

Context {L : Lib}.

Variable w : World.

Lemma load_all_not_parser_error (c : ContainerClient) (a : Asset) (bl : BlobList) :
  outcome (load_all w c a bl) <> inl ParserError.
Proof.
  unfold load_all. rewrite outcome_catch_parser_error.
  apply reraise_not_parser_error.
Qed.

Lemma _get_container_error (l : Location) (e : exn) :
  (forall s, strptime s <> inl ParserError) ->
  _get_container w l = inl e ->
  e <> ParserError.
Proof.
  intros Hp. unfold _get_container, resolve_credential.
  destruct (get_parameter l "sasToken") as [t|].
  - destruct (get_parameter l "expiryTime") as [s|].
    + destruct (strptime s) as [e'|expiry] eqn:Hs.
      * intros [= <-] ->. now apply (Hp s).
      * destruct (expiry >=? now w)%Z;
          destruct (get_parameter l "accountUrl"), (get_parameter l "containerName"),
            (get_parameter l "accountKey"); intros [= <-]; discriminate.
    + intros [= <-]. discriminate.
  - destruct (get_parameter l "accountUrl"), (get_parameter l "containerName"),
      (get_parameter l "accountKey"); intros [= <-]; discriminate.
Qed.

(** X15.  [get_data] never ends with [pd.errors.ParserError]: provided
    that [strptime] and the version service do not raise it themselves, a
    [ParserError] raised while the data is fetched and parsed always
    reaches the caller as a [ValueError]. *)
Theorem get_data_never_raises_parser_error (a : Asset) (v : option string) :
  (forall s, strptime s <> inl ParserError) ->
  (forall i n, service_get_version w i n <> inl ParserError) ->
  outcome (get_data w a v) <> inl ParserError.
Proof.
  intros Hp Hv. unfold get_data.
  destruct (location a) as [l|] eqn:Hl; [|discriminate].
  destruct (String.eqb_spec (type l) "url") as [Hu|Hnu].
  - unfold _get_data_from_url. destruct (get_parameter l "url"); [|discriminate].
    rewrite outcome_catch_parser_error. apply reraise_not_parser_error.
  - destruct (String.eqb_spec (type l) "azureblob") as [Ht|Hnt]; [|discriminate].
    assert (E : get_data w a v = _get_data_from_container w a l v)
      by apply (get_data_azureblob _ _ _ Hl Ht).
    destruct (_get_container w l) as [e|c] eqn:Hc.
    { unfold _get_data_from_container. rewrite Hc. simpl.
      intros [= ->]. now apply (_get_container_error _ Hp Hc). }
    rewrite <- E. destruct v as [v|].
    + destruct (service_get_version w (id a) v) as [e|ver] eqn:Hver.
      { rewrite E. unfold _get_data_from_container, get_version, perform, lift.
        rewrite Hc, Hver. simpl. intros [= ->]. now apply (Hv (id a) v). }
      rewrite (versioned_run _ _ _ Hl Ht Hc Hver).
      destruct (forallb (fresh w c) (contents ver)) eqn:Hfr.
      * rewrite (check_contents_fresh _ _ _ _ Hfr). unfold outcome at 1. simpl.
        apply finish_not_parser_error, load_all_not_parser_error.
      * destruct (check_contents_stale w c (contents ver) [] Hfr)
          as (good & bad & rest & _ & _ & _ & Hrun).
        rewrite Hrun. discriminate.
    + rewrite (unversioned_run _ _ Hl Ht Hc). unfold outcome at 1. simpl.
      apply finish_not_parser_error, load_all_not_parser_error.
Qed.

(** X16.  [get_data] performs a network operation only for an asset that
    has a location, of type [url] with a [url] parameter and the format
    [csv] or [json], or of type [azureblob] with a client that
    [_get_container] could build and, when no version is requested, the
    format [csv] or [json]. *)
Theorem io_only_when_configured (a : Asset) (v : option string) :
  trace (get_data w a v) <> [] ->
  exists l,
    location a = Some l /\
    ((type l = "url" /\
      (exists url, get_parameter l "url" = Some url) /\
      (format_is a "csv" = true \/ format_is a "json" = true))
     \/
     (type l = "azureblob" /\
      (exists c, _get_container w l = inr c) /\
      (v <> None \/ format_is a "csv" = true \/ format_is a "json" = true))).
Proof.
  unfold get_data.
  destruct (location a) as [l|] eqn:Hl; [|intros H; now elim H].
  intros H. exists l. split; [reflexivity|].
  destruct (String.eqb_spec (type l) "url") as [Hu|Hnu].
  - left. split; [exact Hu|].
    unfold _get_data_from_url in H.
    destruct (get_parameter l "url") as [url|]; [|now elim H].
    split; [now exists url|].
    destruct (format_is a "csv"); [now left|].
    destruct (format_is a "json"); [now right|]. now elim H.
  - destruct (String.eqb_spec (type l) "azureblob") as [Ht|Hnt]; [|now elim H].
    right. split; [exact Ht|].
    unfold _get_data_from_container in H.
    destruct (_get_container w l) as [e|c] eqn:Hc; [now elim H|].
    split; [now exists c|].
    destruct v as [v|]; [left; discriminate|]. right.
    destruct (format_is a "csv") eqn:H1; [now left|].
    destruct (format_is a "json") eqn:H2; [now right|].
    exfalso. apply H. unfold lift. simpl.
    rewrite (load_all_unsupported _ _ _ _ H1 H2). reflexivity.
Qed.

End Never.

(** ** User responses *)

Lemma allowed_iff (x : option string) :
  allowed x = true <-> x = Some "admin" \/ x = Some "user".
Proof.
  destruct x as [s|]; simpl.
  - unfold mem, allowed_values. simpl.
    destruct (String.eqb_spec s "admin") as [->|Na]; simpl.
    + split; auto.
    + destruct (String.eqb_spec s "user") as [->|Nu]; simpl.
      * split; auto.
      * split; [discriminate | intros [[= H]|[= H]]; congruence].
  - split; [discriminate | intros [H|H]; discriminate].
Qed.

Lemma too_short_iff (s : string) :
  too_short (Some s) = false <-> 3 <= String.length s.
Proof.
  simpl. rewrite Nat.ltb_ge. reflexivity.
Qed.

(** X17.  What each validating setter accepts: [id] (and likewise
    [email], [first_name], [last_name]) any value but [None]; [username] a
    string of at least three characters; [role] one of [admin] and [user]
    (so not [None]).  An accepted value is stored and the other attributes
    are kept. *)
Theorem validating_setters_accept (u : UserResponse) (x : option string) :
  validating u = true ->
  (x <> None <-> exists u', set_id u x = inr u') /\
  (x <> None <-> exists u', set_email u x = inr u') /\
  (x <> None <-> exists u', set_first_name u x = inr u') /\
  (x <> None <-> exists u', set_last_name u x = inr u') /\
  ((exists s, x = Some s /\ 3 <= String.length s) <->
   exists u', set_username u x = inr u') /\
  (x = Some "admin" \/ x = Some "user" <-> exists u', set_role u x = inr u').
Proof.
  intros Hv.
  unfold set_id, set_email, set_first_name, set_last_name, set_username, set_role.
  rewrite Hv. simpl.
  repeat split.
  1, 3, 5, 7: destruct x; [intros _; eexists; reflexivity | congruence].
  1, 2, 3, 4: destruct x; [discriminate | simpl; intros [u' H]; discriminate].
  - intros (s & -> & Hlen). apply too_short_iff in Hlen.
    simpl in *. rewrite Hlen. eexists; reflexivity.
  - destruct x as [s|]; simpl; [|intros [u' H]; discriminate].
    destruct (Nat.ltb (String.length s) 3) eqn:E; [intros [u' H]; discriminate|].
    intros _. exists s. split; [reflexivity|]. now apply Nat.ltb_ge.
  - intros H. apply allowed_iff in H. rewrite H. eexists; reflexivity.
  - destruct (allowed x) eqn:E; [intros _; now apply allowed_iff|].
    intros [u' H]. discriminate.
Qed.

(** X18.  The setters keep an object well formed: when the object
    validates and its attributes satisfy the constraints, they still do
    after any setter call that returns.  ([None] as a role is reachable
    through the constructor only.) *)
Theorem setters_keep_well_formed (u u' : UserResponse) (x : option string) :
  well_formed u ->
  set_id u x = inr u' \/ set_email u x = inr u' \/ set_first_name u x = inr u' \/
  set_last_name u x = inr u' \/ set_username u x = inr u' \/ set_role u x = inr u' ->
  well_formed u'.
Proof.
  intros Hwf Hset Hv'.
  assert (Hv : validating u = true).
  { unfold set_id, set_email, set_first_name, set_last_name, set_username, set_role
      in Hset.
    destruct (validating u) eqn:E; [reflexivity|]. simpl in Hset.
    destruct Hset as [H|[H|[H|[H|[H|H]]]]]; injection H as <-;
      unfold validating in *; simpl in Hv'; congruence. }
  destruct (Hwf Hv) as (Hi & He & Hf & Hl & Hu & Hr).
  unfold set_id, set_email, set_first_name, set_last_name, set_username, set_role
    in Hset.
  rewrite Hv in Hset. simpl in Hset.
  destruct Hset as [H|[H|[H|[H|[H|H]]]]].
  - destruct x; [|discriminate]. injection H as <-. simpl.
    repeat split; auto. discriminate.
  - destruct x; [|discriminate]. injection H as <-. simpl.
    repeat split; auto. discriminate.
  - destruct x; [|discriminate]. injection H as <-. simpl.
    repeat split; auto. discriminate.
  - destruct x; [|discriminate]. injection H as <-. simpl.
    repeat split; auto. discriminate.
  - destruct x as [s|]; [|discriminate]. simpl in H.
    destruct (Nat.ltb (String.length s) 3) eqn:E; [discriminate|].
    injection H as <-. simpl. repeat split; auto.
    exists s. split; [reflexivity|]. now apply Nat.ltb_ge.
  - destruct (allowed x) eqn:E; [|discriminate]. simpl in H.
    injection H as <-. simpl. repeat split; auto.
    right. now apply allowed_iff.
Qed.

Section Init.

Variable default : Configuration.
Variables id0 email first_name last_name username role : option string.
Variable lvc : option Configuration.

Let cfg : Configuration :=
  match lvc with
  | None => default
  | Some c => c
  end.

Lemma init_checked (u : UserResponse) :
  client_side_validation cfg = true ->
  UserResponse_init default id0 email first_name last_name username role lvc = inr u
  <->
  (id0 <> None /\ email <> None /\ first_name <> None /\ last_name <> None /\
   (exists s, username = Some s /\ 3 <= String.length s) /\
   (role = None \/ role = Some "admin" \/ role = Some "user") /\
   u = mkUserResponse cfg id0 email first_name last_name username role).
Proof.
  unfold UserResponse_init, cfg.
  destruct (match lvc with None => default | Some c => c end) as [b].
  simpl. intros ->.
  unfold set_id, set_email, set_first_name, set_last_name, set_username, set_role,
    validating.
  destruct id0 as [i|]; simpl;
    [|split; [discriminate | intros (H & _); congruence]].
  destruct email as [e|]; simpl;
    [|split; [discriminate | intros (_ & H & _); congruence]].
  destruct first_name as [f|]; simpl;
    [|split; [discriminate | intros (_ & _ & H & _); congruence]].
  destruct last_name as [l|]; simpl;
    [|split; [discriminate | intros (_ & _ & _ & H & _); congruence]].
  destruct username as [s|]; simpl;
    [|split; [discriminate | intros (_ & _ & _ & _ & (s & H & _) & _); congruence]].
  destruct (Nat.ltb (String.length s) 3) eqn:E; simpl.
  { split; [discriminate|].
    intros (_ & _ & _ & _ & (s' & [= <-] & Hlen) & _).
    apply Nat.ltb_lt in E. lia. }
  apply Nat.ltb_ge in E.
  destruct (allowed role) eqn:Ha.
  - pose proof (proj1 (allowed_iff role) Ha) as Hr.
    destruct role as [r|]; [|discriminate]. simpl.
    split.
    + intros [= <-]. repeat split; try discriminate; [now exists s | now right].
    + intros (_ & _ & _ & _ & _ & _ & ->). reflexivity.
  - destruct role as [r|]; simpl.
    + split; [discriminate|].
      intros (_ & _ & _ & _ & _ & [H|H] & _); [discriminate|].
      apply allowed_iff in H. congruence.
    + split.
      * intros [= <-]. repeat split; try discriminate; [now exists s | now left].
      * intros (_ & _ & _ & _ & _ & _ & ->). reflexivity.
Qed.

Lemma init_unchecked :
  client_side_validation cfg = false ->
  UserResponse_init default id0 email first_name last_name username role lvc =
  inr (mkUserResponse cfg id0 email first_name last_name username role).
Proof.
  unfold UserResponse_init, cfg.
  destruct (match lvc with None => default | Some c => c end) as [b].
  simpl. intros ->.
  unfold set_id, set_email, set_first_name, set_last_name, set_username, set_role,
    validating.
  simpl. destruct role; reflexivity.
Qed.

(** X19.  The validating constructor returns an object exactly when [id],
    [email], [first_name] and [last_name] are not [None], [username] is a
    string of at least three characters, and [role] is [admin], [user] or
    [None]; the object then holds the arguments as they were given.  A
    [None] role is not validated: it leaves the attribute unset. *)
Theorem init_validating (u : UserResponse) :
  client_side_validation cfg = true ->
  UserResponse_init default id0 email first_name last_name username role lvc = inr u
  <->
  (id0 <> None /\ email <> None /\ first_name <> None /\ last_name <> None /\
   (exists s, username = Some s /\ 3 <= String.length s) /\
   (role = None \/ role = Some "admin" \/ role = Some "user") /\
   u = mkUserResponse cfg id0 email first_name last_name username role).
Proof.
  exact (init_checked u).
Qed.

(** X20.  Without client-side validation the constructor checks nothing:
    it returns the object that holds the arguments as given, whatever they
    are. *)
Theorem init_not_validating :
  client_side_validation cfg = false ->
  UserResponse_init default id0 email first_name last_name username role lvc =
  inr (mkUserResponse cfg id0 email first_name last_name username role).
Proof.
  exact init_unchecked.
Qed.

End Init.


Lemma value_eqb_eq (x y : option string) : value_eqb x y = true <-> x = y.
Proof.
  destruct x as [a|], y as [b|]; simpl; try (split; congruence).
  rewrite String.eqb_eq. split; congruence.
Qed.

(** X22.  Two user responses are equal for [__eq__] exactly when their six
    attributes are equal, whatever their configurations are; [__ne__] is
    the negation of [__eq__] on every object; and nothing that is not a
    user response is equal to one. *)
Theorem eq_compares_attributes (u : UserResponse) (other : PyObject) :
  (forall o, other = PyUserResponse o ->
     (UserResponse_eq u other = true <->
      _id u = _id o /\ _email u = _email o /\ _first_name u = _first_name o /\
      _last_name u = _last_name o /\ _username u = _username o /\
      _role u = _role o))
  /\
  UserResponse_ne u other = negb (UserResponse_eq u other)
  /\
  (other = PyOther -> UserResponse_eq u other = false).
Proof.
  split; [|split].
  - intros o ->. unfold UserResponse_eq, to_dict. simpl.
    rewrite !andb_true_iff, !value_eqb_eq. tauto.
  - destruct other; reflexivity.
  - intros ->. reflexivity.
Qed.

(** ** A version and the rest of the container *)

Section Frame.

Context {L : Lib}.

Variables w w' : World.
Variable c : ContainerClient.

Lemma check_content_ext (e : Content) :
  find_blob (storage w c) (content_name e) = find_blob (storage w' c) (content_name e) ->
  check_content w c e = check_content w' c e.
Proof.
  intros H. unfold check_content, get_blob_properties. now rewrite H.
Qed.

Lemma check_contents_ext (cs : list Content) (blob_list : list BlobHandle) :
  (forall e, In e cs ->
     find_blob (storage w c) (content_name e) = find_blob (storage w' c) (content_name e)) ->
  check_contents w c cs blob_list = check_contents w' c cs blob_list.
Proof.
  revert blob_list. induction cs as [|e cs IH]; intros blob_list H; simpl.
  - reflexivity.
  - rewrite (check_content_ext e (H e (or_introl eq_refl))).
    destruct (check_content w' c e) as [t [x|blob]]; [reflexivity|].
    rewrite !(bind_ok _ eq_refl). now rewrite IH by (intros e' He'; apply H; now right).
Qed.

Lemma for_each_ext (body body' : BlobHandle -> M DataFrame)
    (hs : list BlobHandle) (acc : list DataFrame) :
  (forall h, In h hs -> body h = body' h) ->
  for_each body hs acc = for_each body' hs acc.
Proof.
  revert acc. induction hs as [|h hs IH]; intros acc H; simpl.
  - reflexivity.
  - rewrite (H h (or_introl eq_refl)).
    destruct (body' h) as [t [x|df]]; [reflexivity|].
    rewrite !(bind_ok _ eq_refl). now rewrite IH by (intros h' Hh'; apply H; now right).
Qed.

Lemma load_all_handles_ext (a : Asset) (hs : list BlobHandle) :
  (forall h, In h hs ->
     find_blob (storage w c) (handle_name h) = find_blob (storage w' c) (handle_name h)) ->
  load_all w c a (Handles hs) = load_all w' c a (Handles hs).
Proof.
  intros H. unfold load_all, iterate, ret. f_equal.
  destruct (format_is a "csv").
  - rewrite !(bind_ok _ eq_refl). f_equal; [f_equal|]; f_equal;
      apply for_each_ext; intros h Hh;
      rewrite !load_csv_run; unfold current_table; now rewrite (H h Hh).
  - destruct (format_is a "json"); [|reflexivity].
    rewrite !(bind_ok _ eq_refl). f_equal; [f_equal|]; f_equal;
      apply for_each_ext; intros h Hh;
      rewrite !load_json_run; unfold current_table; now rewrite (H h Hh).
Qed.

(** X23.  The fetch of a version looks only at the blobs that the version
    names: in two states of the container that hold the same blob, or
    none, under each of these names, it performs the same requests and
    ends with the same table or the same exception, whatever other blobs
    were added or removed. *)
Theorem version_fetch_ignores_other_blobs
    (a : Asset) (l : Location) (v : string) (ver : Version) :
  location a = Some l ->
  type l = "azureblob" ->
  _get_container w l = inr c ->
  _get_container w' l = inr c ->
  service_get_version w (id a) v = inr ver ->
  service_get_version w' (id a) v = inr ver ->
  (forall e, In e (contents ver) ->
     find_blob (storage w c) (content_name e) = find_blob (storage w' c) (content_name e)) ->
  get_data w a (Some v) = get_data w' a (Some v).
Proof.
  intros Hl Ht Hc Hc' Hv Hv' Hsame.
  rewrite (versioned_run w _ _ Hl Ht Hc Hv), (versioned_run w' _ _ Hl Ht Hc' Hv').
  rewrite <- (check_contents_ext (contents ver) [] Hsame).
  destruct (forallb (fresh w c) (contents ver)) eqn:Hfr.
  - rewrite (check_contents_fresh _ _ _ _ Hfr). simpl app.
    rewrite (load_all_handles_ext a (clients (contents ver))); [reflexivity|].
    intros h Hh. unfold clients in Hh. apply in_map_iff in Hh as (e & <- & He).
    simpl. now apply Hsame.
  - destruct (check_contents_stale w c (contents ver) [] Hfr)
      as (good & bad & rest & _ & _ & _ & Hrun).
    now rewrite Hrun.
Qed.

End Frame.

(** ** Runs on the sample world *)

#[local] Existing Instance sample_lib.

Lemma sas_token_until_expiry_then_account_key_witness :
  (resolve_credential sample_world token_location = inr (Some "T") /\
   forall u n,
     get_parameter token_location "accountUrl" = Some u ->
     get_parameter token_location "containerName" = Some n ->
     _get_container sample_world token_location = inr (mkContainerClient u n "T"))
  /\
  (resolve_credential sample_world expired_location
     = inr (get_parameter expired_location "accountKey") /\
   forall u n k,
     get_parameter expired_location "accountUrl" = Some u ->
     get_parameter expired_location "containerName" = Some n ->
     get_parameter expired_location "accountKey" = Some k ->
     _get_container sample_world expired_location = inr (mkContainerClient u n k)).
Proof.
  split.
  - apply (proj1 (@sas_token_until_expiry_then_account_key sample_lib sample_world
                    token_location "T" "2026-11-04T13:00:00Z" 1793797200%Z
                    eq_refl eq_refl eq_refl)).
    vm_compute. discriminate.
  - apply (proj2 (@sas_token_until_expiry_then_account_key sample_lib sample_world
                    expired_location "T" "2026-11-04T11:00:00Z" 1793790000%Z
                    eq_refl eq_refl eq_refl)).
    vm_compute. reflexivity.
Defined.

(** C3.  The expiry time is a UTC timestamp, and the code compares its
    naive reading with [datetime.now()], the local clock.  At the instant
    2026-11-04 12:00:00 UTC: in Bucharest a token that expires one hour
    later, at 13:00:00Z, is passed over and the credential is the account
    key; in New York a token that expired one hour earlier, at 11:00:00Z,
    is still the credential. *)
Theorem utc_expiry_compared_with_local_clock :
  (strptime "2026-11-04T13:00:00Z" = inr 1793797200%Z /\
   (1793797200 >= sample_now)%Z /\
   get_parameter token_location "sasToken" = Some "T" /\
   resolve_credential bucharest_world token_location = inr (Some "K") /\
   _get_container bucharest_world token_location =
     inr (mkContainerClient "https://acc.blob.core.windows.net" "data" "K"))
  /\
  (strptime "2026-11-04T11:00:00Z" = inr 1793790000%Z /\
   (1793790000 < sample_now)%Z /\
   get_parameter expired_location "accountKey" = Some "K" /\
   resolve_credential new_york_world expired_location = inr (Some "T") /\
   _get_container new_york_world expired_location =
     inr (mkContainerClient "https://acc.blob.core.windows.net" "data" "T")).
Proof.
  repeat split; vm_compute; discriminate.
Qed.

(** C4.  A location with a token, no expiry time and an account key: the
    account key is not used, [strptime] is called on [None] and
    [_get_container] ends with its [TypeError]; so does [get_data], before
    any network operation. *)
Theorem undated_token_raises_type_error (L' : Lib) (w : World) (v : option string) :
  get_parameter undated_location "sasToken" = Some "T" /\
  get_parameter undated_location "expiryTime" = None /\
  get_parameter undated_location "accountKey" = Some "K" /\
  @resolve_credential L' w undated_location = inl TypeError /\
  @_get_container L' w undated_location = inl TypeError /\
  @get_data L' w (sample_asset "csv" undated_location) v = ([], inl TypeError).
Proof.
  repeat split.
Qed.

Lemma missing_configuration_before_io_witness :
  get_data sample_world (sample_asset "csv" keyless_location) None =
  ([], inl (ValueError "Parameters missing to create the container.")).
Proof.
  apply (proj2 (@missing_configuration_before_io sample_lib sample_world
                  (sample_asset "csv" keyless_location) keyless_location None
                  eq_refl eq_refl (or_intror (or_intror eq_refl)))
           None).
  reflexivity.
Defined.

(** C6 as stated fails on an empty credential: the three values are there,
    the key is the empty string, the check lets it pass, and the fetch goes
    on to list the container and to download its blobs. *)
Lemma empty_credential_reaches_the_store :
  location (sample_asset "csv" empty_key_location) = Some empty_key_location /\
  type empty_key_location = "azureblob" /\
  resolve_credential sample_world empty_key_location = inr (Some EmptyString) /\
  nonempty (Some EmptyString) = false /\
  get_data sample_world (sample_asset "csv" empty_key_location) None =
  ([EvListBlobs; EvDownloadBlob "a.csv"; EvDownloadBlob "b.csv"],
   inr (mkDataFrame ["x"; "y"]
          [[Some "1"; Some "2"]; [Some "3"; Some "4"]; [Some "5"; Some "6"]])).
Proof.
  repeat split.
Qed.

Lemma url_version_ignored_witness :
  get_data sample_world (sample_asset "csv" url_location) (Some "v1") =
  get_data sample_world (sample_asset "csv" url_location) None.
Proof.
  apply (@url_version_ignored sample_lib sample_world
           (sample_asset "csv" url_location) url_location "v1");
    reflexivity.
Defined.

Lemma stale_or_missing_entry_fails_witness :
  exists good bad rest,
    contents version_old = good ++ bad :: rest /\
    forallb (fresh sample_world sample_container) good = true /\
    (missing sample_world sample_container bad \/
     modified_since sample_world sample_container bad) /\
    outcome (get_data sample_world (sample_asset "csv" sample_location) (Some "old")) =
      inl (FileNotFoundError (Some (not_found_message (content_name bad)))) /\
    existsb is_download
      (trace (get_data sample_world (sample_asset "csv" sample_location) (Some "old")))
    = false.
Proof.
  apply (@stale_or_missing_entry_fails sample_lib sample_world
           (sample_asset "csv" sample_location) sample_location "old"
           sample_container version_old (mkContent "b.csv" 150)).
  - reflexivity.
  - reflexivity.
  - reflexivity.
  - reflexivity.
  - simpl. auto.
  - right. exists (mkBlob "b.csv" 200 (unlines ["x,y"; "3,4"; "5,6"])).
    split; [reflexivity | simpl; lia].
Defined.

Lemma validation_precedes_downloads_witness :
  exists c ver rest,
    _get_container sample_world sample_location = inr c /\
    service_get_version sample_world (Some "222") "v1" = inr ver /\
    forallb (fresh sample_world c) (contents ver) = true /\
    [EvGetVersion (Some "222") "v1"; EvGetBlobProperties "b.csv";
     EvGetBlobProperties "a.csv"; EvDownloadBlob "b.csv"]
    = EvGetVersion (Some "222") "v1" :: get_properties_events (contents ver) ++ rest /\
    forallb is_download rest = true.
Proof.
  apply (proj1 (@validation_precedes_downloads sample_lib sample_world
                  (sample_asset "csv" sample_location) sample_location "v1"
                  eq_refl eq_refl)
           [EvGetVersion (Some "222") "v1"; EvGetBlobProperties "b.csv";
            EvGetBlobProperties "a.csv"; EvDownloadBlob "b.csv"]
           "a.csv" []).
  reflexivity.
Defined.


(** What the statement above amounts to on the sample: the rows of
    [b.csv], then the row of [a.csv]. *)
Example version_v1_table :
  outcome (get_data sample_world (sample_asset "csv" sample_location) (Some "v1")) =
  inr (mkDataFrame ["x"; "y"]
         [[Some "3"; Some "4"]; [Some "5"; Some "6"]; [Some "1"; Some "2"]]).
Proof.
  reflexivity.
Qed.


Lemma unversioned_fetch_in_listing_order_witness :
  exists t,
    get_data sample_world (sample_asset "csv" sample_location) None =
      (EvListBlobs
         :: download_events (map blob_name (storage sample_world sample_container)),
       inr t) /\
    columns t = all_columns [table_a; table_b] /\
    rows t = flat_map (reindexed_rows (all_columns [table_a; table_b]))
               [table_a; table_b] /\
    nrows t = list_sum (map nrows [table_a; table_b]).
Proof.
  apply (@unversioned_fetch_in_listing_order sample_lib sample_world
           (sample_asset "csv" sample_location) sample_location
           sample_container "csv" [table_a; table_b]).
  - reflexivity.
  - reflexivity.
  - reflexivity.
  - reflexivity.
  - reflexivity.
  - discriminate.
  - reflexivity.
  - reflexivity.
Defined.

(** C5 as stated fails on a format that is neither [csv] nor [json]: the
    container resolves and lists two blobs, and the fetch raises
    [NotImplementedError] without listing them; no table is returned. *)
Lemma listing_of_unsupported_format_fails :
  location (sample_asset "xml" sample_location) = Some sample_location /\
  type sample_location = "azureblob" /\
  _get_container sample_world sample_location = inr sample_container /\
  List.length (storage sample_world sample_container) = 2 /\
  get_data sample_world (sample_asset "xml" sample_location) None =
  ([], inl NotImplementedError).
Proof.
  repeat split.
Qed.

(** The end-to-end scenario of a [url] location: the resource
    [a,b / 1,2 / 3,4] becomes the table with columns [a], [b] and rows
    (1,2), (3,4). *)
Example url_scenario :
  get_data sample_world (sample_asset "csv" url_location) None =
  ([EvUrlOpen "http://x/data.csv"],
   inr (mkDataFrame ["a"; "b"] [[Some "1"; Some "2"]; [Some "3"; Some "4"]])).
Proof.
  reflexivity.
Qed.

(** A version without contents and an empty container: [pd.concat] is
    called on an empty list. *)
Example empty_version :
  get_data sample_world (sample_asset "csv" sample_location) (Some "empty") =
  ([EvGetVersion (Some "222") "empty"],
   inl (ValueError "No objects to concatenate")).
Proof.
  reflexivity.
Qed.

(** ** Further runs on the sample data *)

Lemma get_parameter_app_witness :
  get_parameter
    (mkLocation "azureblob" ([param "a" "1"; mkParam "k" None] ++ [param "k" "2"])) "k"
  = get_parameter (mkLocation "azureblob" [param "a" "1"; mkParam "k" None]) "k"
  /\
  get_parameter (mkLocation "azureblob" ([param "a" "1"] ++ [param "k" "2"])) "k"
  = get_parameter (mkLocation "azureblob" [param "k" "2"]) "k".
Proof.
  split.
  - apply (proj1 (get_parameter_app "azureblob"
                    [param "a" "1"; mkParam "k" None] [param "k" "2"] "k")).
    exists (mkParam "k" None). split; [simpl; auto | reflexivity].
  - apply (proj2 (get_parameter_app "azureblob" [param "a" "1"] [param "k" "2"] "k")).
    simpl. intros p [<-|[]]. simpl. discriminate.
Defined.

Lemma get_parameter_some_in_witness :
  In (mkParam "accountKey" (Some "K")) (parameters sample_location).
Proof.
  apply (@get_parameter_some_in sample_location "accountKey" "K"). reflexivity.
Defined.

Lemma get_container_inversion_witness :
  get_parameter token_location "accountUrl" = Some "https://acc.blob.core.windows.net" /\
  get_parameter token_location "containerName" = Some "data" /\
  ((exists s expiry,
      get_parameter token_location "sasToken" = Some "T" /\
      get_parameter token_location "expiryTime" = Some s /\
      strptime s = inr expiry /\
      (expiry >= now sample_world)%Z)
   \/
   (get_parameter token_location "accountKey" = Some "T" /\
    (get_parameter token_location "sasToken" = None \/
     exists s expiry,
       get_parameter token_location "expiryTime" = Some s /\
       strptime s = inr expiry /\
       (expiry < now sample_world)%Z))).
Proof.
  apply (@get_container_inversion sample_lib sample_world token_location
           (mkContainerClient "https://acc.blob.core.windows.net" "data" "T")).
  reflexivity.
Defined.

Lemma no_token_ignores_clock_and_expiry_witness :
  @_get_container sample_lib sample_world sample_location =
  @_get_container
    (mkLib (fun _ => inl TypeError) (fun b => inr b) sample_sniff sample_read_csv
       sample_read_json)
    (mkWorld 0 (fun _ => []) sample_versions sample_resources)
    sample_location.
Proof.
  apply (@no_token_ignores_clock_and_expiry sample_lib
           (mkLib (fun _ => inl TypeError) (fun b => inr b) sample_sniff sample_read_csv
              sample_read_json)
           sample_world
           (mkWorld 0 (fun _ => []) sample_versions sample_resources)
           sample_location).
  reflexivity.
Defined.

Lemma malformed_expiry_fails_before_io_witness :
  get_data sample_world (sample_asset "csv" malformed_location) None =
  ([], inl (ValueError "time data does not match format")).
Proof.
  apply (@malformed_expiry_fails_before_io sample_lib sample_world
           (sample_asset "csv" malformed_location) malformed_location None
           "T" "tomorrow" (ValueError "time data does not match format"));
    reflexivity.
Defined.


Lemma url_fetch_not_attempted_witness :
  get_data sample_world (sample_asset "csv" (mkLocation "url" [])) None =
    ([], inl (ValueError "Location has no url parameter"))
  /\
  get_data sample_world (sample_asset "xml" url_location) None =
    ([], inl NotImplementedError).
Proof.
  split.
  - apply (proj1 (@url_fetch_not_attempted sample_lib sample_world
                    (sample_asset "csv" (mkLocation "url" [])) (mkLocation "url" [])
                    None eq_refl eq_refl)).
    reflexivity.
  - apply (proj2 (@url_fetch_not_attempted sample_lib sample_world
                    (sample_asset "xml" url_location) url_location
                    None eq_refl eq_refl)).
    + discriminate.
    + reflexivity.
    + reflexivity.
Defined.

Lemma version_service_failure_witness :
  get_data sample_world (sample_asset "csv" sample_location) (Some "nope") =
  ([EvGetVersion (Some "222") "nope"], inl (OtherError "NotFound")).
Proof.
  apply (@version_service_failure sample_lib sample_world
           (sample_asset "csv" sample_location) sample_location "nope"
           sample_container (OtherError "NotFound"));
    reflexivity.
Defined.

Lemma validation_stops_at_first_stale_entry_witness :
  get_data sample_world (sample_asset "csv" sample_location) (Some "gone") =
  (EvGetVersion (Some "222") "gone"
     :: get_properties_events ([mkContent "a.csv" 100] ++ [mkContent "c.csv" 300]),
   inl (FileNotFoundError (Some (not_found_message "c.csv")))).
Proof.
  apply (@validation_stops_at_first_stale_entry sample_lib sample_world
           (sample_asset "csv" sample_location) sample_location "gone"
           sample_container version_gone
           [mkContent "a.csv" 100] (mkContent "c.csv" 300) []);
    reflexivity.
Defined.

Lemma unsupported_format_after_validation_witness :
  get_data sample_world (sample_asset "xml" sample_location) None
    = ([], inl NotImplementedError)
  /\
  get_data sample_world (sample_asset "xml" sample_location) (Some "v1") =
    (EvGetVersion (Some "222") "v1" :: get_properties_events (contents version_v1),
     inl NotImplementedError).
Proof.
  destruct (@unsupported_format_after_validation sample_lib sample_world
              (sample_asset "xml" sample_location) sample_location sample_container
              eq_refl eq_refl eq_refl eq_refl eq_refl) as [H1 H2].
  split; [exact H1|].
  apply (H2 "v1" version_v1); reflexivity.
Defined.

Lemma nothing_to_concatenate_witness :
  get_data empty_world (sample_asset "csv" sample_location) None =
    ([EvListBlobs], inl (ValueError "No objects to concatenate"))
  /\
  get_data sample_world (sample_asset "csv" sample_location) (Some "empty") =
    ([EvGetVersion (Some "222") "empty"],
     inl (ValueError "No objects to concatenate")).
Proof.
  split.
  - apply (proj1 (@nothing_to_concatenate sample_lib empty_world
                    (sample_asset "csv" sample_location) sample_location
                    sample_container "csv" eq_refl eq_refl eq_refl eq_refl eq_refl)).
    reflexivity.
  - apply (proj2 (@nothing_to_concatenate sample_lib sample_world
                    (sample_asset "csv" sample_location) sample_location
                    sample_container "csv" eq_refl eq_refl eq_refl eq_refl eq_refl)
             "empty" (mkVersion "empty" []));
      reflexivity.
Defined.

Lemma load_stops_at_first_failure_witness :
  get_data broken_world (sample_asset "csv" sample_location) None =
  (EvListBlobs
     :: download_events
          (map blob_name ([mkBlob "a.csv" 100 (unlines ["x,y"; "1,2"])] ++ [broken_blob])),
   reraise container_message (inl ParserError)).
Proof.
  apply (@load_stops_at_first_failure sample_lib broken_world
           (sample_asset "csv" sample_location) sample_location sample_container
           "csv"
           [mkBlob "a.csv" 100 (unlines ["x,y"; "1,2"])] broken_blob
           [mkBlob "b.csv" 200 (unlines ["x,y"; "3,4"; "5,6"])]
           [table_a] ParserError);
    reflexivity.
Defined.


Lemma sample_strptime_error (s : string) : sample_strptime s <> inl ParserError.
Proof.
  unfold sample_strptime.
  repeat match goal with
         | |- context [if ?b then _ else _] => destruct b
         | |- context [match ?x with Some _ => _ | None => _ end] => destruct x
         end; discriminate.
Qed.

Lemma sample_versions_error (i : option string) (n : string) :
  sample_versions i n <> inl ParserError.
Proof.
  unfold sample_versions.
  repeat match goal with
         | |- context [if ?b then _ else _] => destruct b
         end; discriminate.
Qed.

Lemma get_data_never_raises_parser_error_witness :
  outcome (get_data broken_world (sample_asset "csv" sample_location) None)
  <> inl ParserError.
Proof.
  apply (@get_data_never_raises_parser_error sample_lib broken_world
           (sample_asset "csv" sample_location) None).
  - exact sample_strptime_error.
  - exact sample_versions_error.
Defined.

Lemma io_only_when_configured_witness :
  exists l,
    location (sample_asset "csv" sample_location) = Some l /\
    ((type l = "url" /\
      (exists url, get_parameter l "url" = Some url) /\
      (format_is (sample_asset "csv" sample_location) "csv" = true \/
       format_is (sample_asset "csv" sample_location) "json" = true))
     \/
     (type l = "azureblob" /\
      (exists c, _get_container sample_world l = inr c) /\
      (@None string <> None \/
       format_is (sample_asset "csv" sample_location) "csv" = true \/
       format_is (sample_asset "csv" sample_location) "json" = true))).
Proof.
  apply (@io_only_when_configured sample_lib sample_world
           (sample_asset "csv" sample_location) None).
  vm_compute. discriminate.
Defined.

Lemma validating_setters_accept_witness :
  (Some "bob" <> None <-> exists u', set_id (sample_user strict) (Some "bob") = inr u') /\
  (Some "bob" <> None <-> exists u', set_email (sample_user strict) (Some "bob") = inr u') /\
  (Some "bob" <> None <->
   exists u', set_first_name (sample_user strict) (Some "bob") = inr u') /\
  (Some "bob" <> None <->
   exists u', set_last_name (sample_user strict) (Some "bob") = inr u') /\
  ((exists s, Some "bob" = Some s /\ 3 <= String.length s) <->
   exists u', set_username (sample_user strict) (Some "bob") = inr u') /\
  (Some "bob" = Some "admin" \/ Some "bob" = Some "user" <->
   exists u', set_role (sample_user strict) (Some "bob") = inr u').
Proof.
  apply (@validating_setters_accept (sample_user strict) (Some "bob")).
  reflexivity.
Defined.

Lemma sample_user_well_formed (cfg : Configuration) : well_formed (sample_user cfg).
Proof.
  intros _. simpl. repeat split; try discriminate.
  - exists "kata". split; [reflexivity | simpl; lia].
  - right. right. reflexivity.
Qed.

Lemma setters_keep_well_formed_witness :
  well_formed
    (mkUserResponse strict (Some "1") (Some "kata@example.org") (Some "Kata")
       (Some "Cseke") (Some "kata") (Some "admin")).
Proof.
  apply (@setters_keep_well_formed (sample_user strict)
           (mkUserResponse strict (Some "1") (Some "kata@example.org") (Some "Kata")
              (Some "Cseke") (Some "kata") (Some "admin"))
           (Some "admin")).
  - exact (sample_user_well_formed strict).
  - right. right. right. right. right. reflexivity.
Defined.

Lemma init_validating_witness :
  UserResponse_init strict (Some "1") (Some "kata@example.org") (Some "Kata")
    (Some "Cseke") (Some "kata") None None
  = inr (mkUserResponse strict (Some "1") (Some "kata@example.org") (Some "Kata")
           (Some "Cseke") (Some "kata") None).
Proof.
  apply (proj2 (@init_validating strict (Some "1") (Some "kata@example.org")
                  (Some "Kata") (Some "Cseke") (Some "kata") None None
                  (mkUserResponse strict (Some "1") (Some "kata@example.org")
                     (Some "Kata") (Some "Cseke") (Some "kata") None)
                  eq_refl)).
  repeat split; try discriminate.
  - exists "kata". split; [reflexivity | simpl; lia].
  - left. reflexivity.
Defined.

Lemma init_not_validating_witness :
  UserResponse_init strict None None None None (Some "k") (Some "root") (Some lenient)
  = inr (mkUserResponse lenient None None None None (Some "k") (Some "root")).
Proof.
  apply (@init_not_validating strict None None None None (Some "k") (Some "root")
           (Some lenient)).
  reflexivity.
Defined.


Lemma eq_compares_attributes_witness :
  UserResponse_eq (sample_user strict) (PyUserResponse (sample_user lenient)) = true.
Proof.
  apply (proj1 (eq_compares_attributes (sample_user strict)
                  (PyUserResponse (sample_user lenient)))
           (sample_user lenient) eq_refl).
  repeat split.
Defined.

Lemma version_fetch_ignores_other_blobs_witness :
  get_data sample_world (sample_asset "csv" sample_location) (Some "v1") =
  get_data grown_world (sample_asset "csv" sample_location) (Some "v1").
Proof.
  apply (@version_fetch_ignores_other_blobs sample_lib sample_world grown_world
           sample_container (sample_asset "csv" sample_location) sample_location
           "v1" version_v1).
  - reflexivity.
  - reflexivity.
  - reflexivity.
  - reflexivity.
  - reflexivity.
  - reflexivity.
  - simpl. intros e [<-|[<-|[]]]; reflexivity.
Defined.
